(** * NestJS / TypeORM integration: connection bootstrap, retry protocol and
      entity registry

    A shallow embedding of [src/lib/typeorm-core.module.ts],
    [src/lib/typeorm.module.ts] and [src/lib/typeorm.providers.ts].

    Asynchronous code is sequential here (every retry waits, then runs the
    deferred closure again), so a promise or observable is embedded as a
    state-passing function on [World] that returns either the error it rejects
    with or the value it resolves to. *)

From Stdlib Require Import ZArith Lia.
From stdpp Require Import base option gmap strings list.

Set Default Proof Using "Type".

(** ** Data model *)

(** [EntityClassOrSchema = Function | EntitySchema].  The code tells three
    shapes apart: a class whose prototype is a [Repository] (a custom
    repository class), any other class, and an [EntitySchema] object.  The
    argument is the identity of the JavaScript object: [includes], [indexOf]
    and [===] compare by it. *)
Inductive EntityClassOrSchema : Type :=
| EntityClass (id : nat)
| RepositoryClass (id : nat)
| EntitySchema (id : nat).

#[global] Instance EntityClassOrSchema_eq_dec : EqDecision EntityClassOrSchema.
Proof. solve_decision. Defined.

(** [entity instanceof Function && entity.prototype instanceof Repository] *)
Definition isCustomRepository (entity : EntityClassOrSchema) : bool :=
  match entity with
  | RepositoryClass _ => true
  | EntityClass _ | EntitySchema _ => false
  end.

(** A thrown value; only [message] is read by the code. *)
Record Error : Type := mkError { message : string }.

(** TypeORM's [MixedList<T> = T[] | { [key: string]: T }].  The keyed form
    lists the object's own enumerable properties in the order in which
    [Object.values] enumerates them. *)
Inductive MixedList (A : Type) : Type :=
| ArrayForm (items : list A)
| KeyedForm (props : list (string * A)).
Arguments ArrayForm {A} items.
Arguments KeyedForm {A} props.

(** [Object.values] on a value whose [typeof] is ['object'] *)
Definition Object_values {A : Type} (o : MixedList A) : list A :=
  match o with
  | ArrayForm items => items
  | KeyedForm props => props.*2
  end.

(** [TypeOrmModuleOptions] of the options interface, together with the three
    fields of [Partial<DataSourceOptions>] that the module reads.  An optional
    field is an [option]; an optional boolean that is only tested for
    truthiness is a [bool] ([undefined] is [false]). *)
Record TypeOrmModuleOptions : Type := mkOptions {
  retryAttempts : option Z;
  retryDelay : option Z;
  toRetry : option (Error -> bool);
  autoLoadEntities : bool;
  keepDataSourceAlive : bool;
  verboseRetryLog : bool;
  name : option string;
  type : option string;
  entities : option (MixedList EntityClassOrSchema)
}.

(** [options as DataSourceOptions] is a cast. *)
Abbreviation DataSourceOptions := TypeOrmModuleOptions.

(** The live connection object: [handle] is its identity. *)
Record DataSource : Type := mkDataSource {
  handle : nat;
  isInitialized : bool;
  options : DataSourceOptions
}.

(** [DataSource | DataSourceOptions | string], the connection argument of
    [forFeature] and of [createTypeOrmProviders] *)
Inductive DataSourceToken : Type :=
| TokenName (s : string)
| TokenObject (o : DataSourceOptions).

(** Modelled from the spec: the constant [DEFAULT_DATA_SOURCE_NAME] of
    [typeorm.constants], which is not among the sources; the spec registers
    for the single-connection case under the name "default". *)
Definition DEFAULT_DATA_SOURCE_NAME : string := "default".

(** Truthiness of an optional string: [undefined] and the empty string are
    falsy. *)
Definition truthy (s : option string) : bool :=
  match s with
  | Some (String _ _) => true
  | Some EmptyString | None => false
  end.

(** What the host observes of a run. *)
Inductive LogLine : Type :=
| RetryWarning (label : string) (detail : option string)
| ShutdownError (text : string).

(** The process-wide state the module reads and writes: the static map of
    [EntitiesMetadataStorage], TypeORM's connection manager (only read here),
    and, oldest first, the argument of every call of the connection factory,
    the lines written to the logger, the delays waited and the connections on
    which [close] was called. *)
Record World : Type := mkWorld {
  storage : gmap string (list EntityClassOrSchema);
  manager : gmap string DataSource;
  invocations : list (option DataSourceOptions);
  logged : list LogLine;
  waited : list Z;
  closed : list DataSource
}.

Definition setStorage (st : gmap string (list EntityClassOrSchema))
    (w : World) : World :=
  mkWorld st (manager w) (invocations w) (logged w) (waited w) (closed w).

Definition recordInvocation (arg : option DataSourceOptions) (w : World)
    : World :=
  mkWorld (storage w) (manager w) (invocations w ++ [arg]) (logged w)
    (waited w) (closed w).

Definition writeLog (line : LogLine) (w : World) : World :=
  mkWorld (storage w) (manager w) (invocations w) (logged w ++ [line])
    (waited w) (closed w).

Definition wait (ms : Z) (w : World) : World :=
  mkWorld (storage w) (manager w) (invocations w) (logged w)
    (waited w ++ [ms]) (closed w).

Definition recordClose (dataSource : DataSource) (w : World) : World :=
  mkWorld (storage w) (manager w) (invocations w) (logged w) (waited w)
    (closed w ++ [dataSource]).

(** An asynchronous operation: it rejects with an error ([inl]) or resolves
    to a value ([inr]). *)
Definition Async (A : Type) : Type := World -> World * (Error + A).

(** [try { body } catch (e) { handler(e) }] *)
Definition tryCatch {A : Type} (body : Async A) (handler : Error -> Async A)
    : Async A :=
  fun w =>
    match body w with
    | (w1, inl e) => handler e w1
    | (w1, inr v) => (w1, inr v)
    end.

(** [TypeOrmDataSourceFactory = (options?) => Promise<DataSource>].  The
    collaborator is given by what its [n]-th call (counted from 0) does with
    its argument. *)
Definition TypeOrmDataSourceFactory : Type :=
  nat -> option DataSourceOptions -> Error + DataSource.

(** One call of the connection factory. *)
Definition invoke (factory : TypeOrmDataSourceFactory)
    (arg : option DataSourceOptions) : Async DataSource :=
  fun w => (recordInvocation arg w, factory (length (invocations w)) arg).

(** ** Entity registry *)

(** [collection.includes(entity)] *)
Definition includes (collection : list EntityClassOrSchema)
    (entity : EntityClassOrSchema) : bool :=
  bool_decide (entity ∈ collection).

(** One step of the accumulation: an entity already present (by identity) is
    skipped, any other is pushed at the end. *)
Definition pushNew (collection : list EntityClassOrSchema)
    (entity : EntityClassOrSchema) : list EntityClassOrSchema :=
  if includes collection entity then collection else collection ++ [entity].

(** Removal of duplicates that keeps the first occurrence of every element,
    and so the order of first appearance. *)
Fixpoint firstOccurrences (l : list EntityClassOrSchema)
    : list EntityClassOrSchema :=
  match l with
  | [] => []
  | x :: t => x :: filter (fun y => y ≠ x) (firstOccurrences t)
  end.

Section Registry.

(** [getDataSourceName] of [common/typeorm.utils] is not among the sources;
    the logical name it resolves is a parameter of the development. *)
Variable getDataSourceName : DataSourceOptions -> string.

(** Modelled from the spec: key resolution of the registry (4.2), part of
    [entities-metadata.storage], which is not among the sources.  A string is
    used directly; a configuration-like object resolves as the bootstrapper
    resolves its own logical name. *)
Definition resolveKey (dataSource : DataSourceToken) : string :=
  match dataSource with
  | TokenName s => s
  | TokenObject o => getDataSourceName o
  end.

(** Modelled from the spec: [EntitiesMetadataStorage.addEntitiesByDataSource]
    of [entities-metadata.storage], which is not among the sources.  It is
    [register] of 4.2: it appends to the ordered collection stored under the
    resolved key, duplicates removed by identity; what is stored is never
    replaced. *)
Definition addEntitiesByDataSource (dataSource : DataSourceToken)
    (entities : list EntityClassOrSchema)
    (st : gmap string (list EntityClassOrSchema))
    : gmap string (list EntityClassOrSchema) :=
  let key := resolveKey dataSource in
  let collection := default [] (st !! key) in
  <[key := foldl pushNew collection entities]> st.

(** Modelled from the spec: [EntitiesMetadataStorage.getEntitiesByDataSource]
    of [entities-metadata.storage], which is not among the sources.  It is
    [lookup] of 4.2: the stored collection, and the empty collection for a key
    that has never been registered. *)
Definition getEntitiesByDataSource (dataSource : DataSourceToken)
    (st : gmap string (list EntityClassOrSchema))
    : list EntityClassOrSchema :=
  default [] (st !! resolveKey dataSource).

(** A sequence of [register] calls, first call first. *)
Definition registerAll
    (calls : list (DataSourceToken * list EntityClassOrSchema))
    (st : gmap string (list EntityClassOrSchema))
    : gmap string (list EntityClassOrSchema) :=
  foldl (fun acc c => addEntitiesByDataSource c.1 c.2 acc) st calls.

(** What a sequence of calls passed for [key], in call order. *)
Definition registeredUnder (key : string)
    (calls : list (DataSourceToken * list EntityClassOrSchema))
    : list EntityClassOrSchema :=
  concat ((filter (fun c => resolveKey c.1 = key) calls).*2).

End Registry.

(** ** Retry protocol *)

(** The retry predicate; without one every failure is retryable. *)
Definition retryable (toRetry : option (Error -> bool)) (error : Error)
    : bool :=
  match toRetry with
  | Some predicate => predicate error
  | None => true
  end.

(** The retry warning: it names the connection and, when verbose, carries the
    message of the error. *)
Definition retryWarning (label : string) (verbose : bool) (error : Error)
    : LogLine :=
  RetryWarning label (if verbose then Some (message error) else None).

(** Modelled from the spec: the loop of the retry protocol (4.1), part of
    [handleRetry].  [remaining] is the number of attempts left after the one
    that is running.  On failure, if it is positive and the predicate accepts
    the error: log a warning, wait, decrement, run the operation again from
    scratch; otherwise the error of this attempt propagates as it is. *)
Fixpoint retryLoop {A : Type} (remaining : nat) (delay : Z)
    (label : string) (verbose : bool) (toRetry : option (Error -> bool))
    (source : Async A) (w : World) : World * (Error + A) :=
  match source w with
  | (w1, inr value) => (w1, inr value)
  | (w1, inl error) =>
      match remaining with
      | S remaining' =>
          if retryable toRetry error
          then retryLoop remaining' delay label verbose toRetry source
                 (wait delay (writeLog (retryWarning label verbose error) w1))
          else (w1, inl error)
      | O => (w1, inl error)
      end
  end.

(** Modelled from the spec: [handleRetry] of [common/typeorm.utils], which is
    not among the sources.  Defaults of 4.1: 10 attempts, 3000 ms, every error
    retryable, not verbose.  The first run of the operation is one of the
    [attempts] (section 8: [N] total attempts are [N-1] retries), so
    [attempts - 1] of them remain while it runs; for [attempts] of 1, 0 or
    less none remains and the first failure is fatal. *)
Definition handleRetry {A : Type} (retryAttempts : option Z)
    (retryDelay : option Z) (dataSourceName : string)
    (verboseRetryLog : bool) (toRetry : option (Error -> bool))
    (source : Async A) : Async A :=
  let attempts := default 10%Z retryAttempts in
  let delayMs := default 3000%Z retryDelay in
  retryLoop (Z.to_nat (attempts - 1)) delayMs dataSourceName verboseRetryLog
    toRetry source.

(** Modelled from the spec: the attempt count that [handleRetry] works with
    for given options, 10 unless it is configured (3, 4.1). *)
Definition attempts (options : TypeOrmModuleOptions) : Z :=
  default 10%Z (retryAttempts options).

(** Modelled from the spec: the delay that [handleRetry] works with for given
    options, 3000 ms unless it is configured (3, 4.1). *)
Definition delayMs (options : TypeOrmModuleOptions) : Z :=
  default 3000%Z (retryDelay options).

(** The world after failed attempts that were each retried: every attempt
    called the factory with [arg], logged its warning and waited. *)
Definition afterFailures (arg : option DataSourceOptions) (delay : Z)
    (label : string) (verbose : bool) (errors : list Error) (w : World)
    : World :=
  mkWorld (storage w) (manager w)
    (invocations w ++ replicate (length errors) arg)
    (logged w ++ (retryWarning label verbose <$> errors))
    (waited w ++ replicate (length errors) delay)
    (closed w).

(** ** Connection bootstrap ([TypeOrmCoreModule]) *)

(** [{ ...options, entities }] *)
Definition withEntities (o : TypeOrmModuleOptions)
    (l : list EntityClassOrSchema) : DataSourceOptions :=
  mkOptions (retryAttempts o) (retryDelay o) (toRetry o) (autoLoadEntities o)
    (keepDataSourceAlive o) (verboseRetryLog o) (name o) (type o)
    (Some (ArrayForm l)).

(** The injection tokens of the container are opaque. *)
Record TypeOrmCoreModule (InjectionToken : Type) : Type := mkCoreModule {
  this_options : TypeOrmModuleOptions;
  this_moduleRef : InjectionToken -> option DataSource
}.
Arguments this_options {InjectionToken} _.
Arguments this_moduleRef {InjectionToken} _ _.

Section Bootstrap.

Variable getDataSourceName : DataSourceOptions -> string.

(** TypeORM's own connect function, the default connection factory *)
Variable createConnection : TypeOrmDataSourceFactory.

(** The body of the [try] block of the deferred closure: the connection to
    reuse, if there is one.  [manager.get] is only reached when [manager.has]
    holds, so nothing is thrown for the empty [catch] to swallow. *)
Definition reusableDataSource (options : TypeOrmModuleOptions) (w : World)
    : option DataSource :=
  if keepDataSourceAlive options then
    let dataSourceName := getDataSourceName options in
    match manager w !! dataSourceName with
    | Some dataSource =>
        if isInitialized dataSource then Some dataSource else None
    | None => None
    end
  else None.

(** [typeof options.entities === 'object' ? Object.values(options.entities)
    : options.entities], then the branch on [if (entities)]: an array, empty
    or not, is truthy. *)
Definition resolveEntities (options : TypeOrmModuleOptions)
    (dataSourceToken : string) (w : World) : list EntityClassOrSchema :=
  let entities := Object_values <$> entities options in
  match entities with
  | Some entities =>
      entities ++
      getEntitiesByDataSource getDataSourceName (TokenName dataSourceToken)
        (storage w)
  | None =>
      getEntitiesByDataSource getDataSourceName (TokenName dataSourceToken)
        (storage w)
  end.

(** The closure passed to [defer]: it runs once per attempt. *)
Definition connectOnce (options : TypeOrmModuleOptions)
    (createTypeormDataSource : TypeOrmDataSourceFactory)
    (dataSourceToken : string) : Async DataSource :=
  fun w =>
    match reusableDataSource options w with
    | Some dataSource => (w, inr dataSource)
    | None =>
        if negb (truthy (type options)) then
          invoke createTypeormDataSource None w
        else if negb (autoLoadEntities options) then
          invoke createTypeormDataSource (Some options) w
        else
          let entities := resolveEntities options dataSourceToken w in
          invoke createTypeormDataSource
            (Some (withEntities options entities)) w
    end.

(** What the closure passes to the connection factory when it does not reuse
    a connection: the three branches of [connectOnce]. *)
Definition factoryArgument (options : TypeOrmModuleOptions)
    (dataSourceToken : string) (w : World) : option DataSourceOptions :=
  if negb (truthy (type options)) then None
  else if negb (autoLoadEntities options) then Some options
  else Some (withEntities options (resolveEntities options dataSourceToken w)).

(** [TypeOrmCoreModule.createDataSourceFactory] *)
Definition createDataSourceFactory (options : TypeOrmModuleOptions)
    (dataSourceFactory : option TypeOrmDataSourceFactory)
    : Async DataSource :=
  let dataSourceToken := getDataSourceName options in
  let createTypeormDataSource := default createConnection dataSourceFactory in
  handleRetry (retryAttempts options) (retryDelay options) dataSourceToken
    (verboseRetryLog options) (toRetry options)
    (connectOnce options createTypeormDataSource dataSourceToken).

(** *** Shutdown *)

Variable InjectionToken : Type.

(** [getDataSourceToken] of [common/typeorm.utils] is not among the sources. *)
Variable getDataSourceToken : option DataSourceToken -> InjectionToken.

(** [dataSource.close()] is TypeORM's: what it rejects with, if it does. *)
Variable closeOutcome : DataSource -> option Error.

(** [await dataSource.close()] *)
Definition close (dataSource : DataSource) : Async unit :=
  fun w =>
    (recordClose dataSource w,
     match closeOutcome dataSource with
     | Some error => inl error
     | None => inr tt
     end).

(** [TypeOrmCoreModule.onApplicationShutdown].  [moduleRef.get] answers with
    the provided connection, or with a falsy value. *)
Definition onApplicationShutdown (this : TypeOrmCoreModule InjectionToken)
    : Async unit :=
  fun w =>
    if keepDataSourceAlive (this_options this) then (w, inr tt)
    else
      let dataSource :=
        this_moduleRef this
          (getDataSourceToken (Some (TokenObject (this_options this)))) in
      tryCatch
        (fun w =>
           match dataSource with
           | Some dataSource => close dataSource w
           | None => (w, inr tt)
           end)
        (fun e w => (writeLog (ShutdownError (message e)) w, inr tt))
        w.

End Bootstrap.

(** ** Repository providers ([typeorm.providers.ts]) *)

(** The repository a provider hands out, named by the call that obtains it
    from the connection. *)
Inductive RepositoryLookup : Type :=
| getRepository (dataSource : DataSource) (entity : EntityClassOrSchema)
| getMongoRepository (dataSource : DataSource) (entity : EntityClassOrSchema).

Record Provider (InjectionToken : Type) : Type := mkProvider {
  provide : InjectionToken;
  useFactory : DataSource -> RepositoryLookup;
  inject : list InjectionToken;
  targetEntitySchema : option EntityClassOrSchema
}.
Arguments provide {InjectionToken} _.
Arguments useFactory {InjectionToken} _ _.
Arguments inject {InjectionToken} _.
Arguments targetEntitySchema {InjectionToken} _.

(** [{ module: TypeOrmModule, providers, exports }] *)
Record DynamicModule (InjectionToken : Type) : Type := mkDynamicModule {
  providers : list (Provider InjectionToken);
  exports : list (Provider InjectionToken)
}.
Arguments providers {InjectionToken} _.
Arguments exports {InjectionToken} _.

Section Providers.

Variable InjectionToken : Type.
Variable getDataSourceName : DataSourceOptions -> string.

(** [getRepositoryToken] and [getDataSourceToken] of [common/typeorm.utils]
    are not among the sources. *)
Variable getRepositoryToken :
  EntityClassOrSchema -> option DataSourceToken -> InjectionToken.
Variable getDataSourceToken : option DataSourceToken -> InjectionToken.

(** The targets of [getMetadataArgsStorage().tables], TypeORM's table of
    decorated classes *)
Variable tables : list EntityClassOrSchema.

(** [getCustomRepositoryEntity] of [helpers/get-custom-repository-entity] is
    not among the sources: the entity classes that the custom repository
    classes of a list manage. *)
Variable getCustomRepositoryEntity :
  list EntityClassOrSchema -> list EntityClassOrSchema.

(** The [useFactory] of the provider built for [entity] *)
Definition repositoryFactory (entity : EntityClassOrSchema)
    (dataSource : DataSource) : RepositoryLookup :=
  if isCustomRepository entity then getRepository dataSource entity
  else if bool_decide (type (options dataSource) = Some "mongodb")
       then getMongoRepository dataSource entity
       else getRepository dataSource entity.

(** [createTypeOrmProviders] *)
Definition createTypeOrmProviders
    (entities : option (list EntityClassOrSchema))
    (dataSource : option DataSourceToken) : list (Provider InjectionToken) :=
  (fun entity =>
     {| provide := getRepositoryToken entity dataSource;
        useFactory := repositoryFactory entity;
        inject := [getDataSourceToken dataSource];
        targetEntitySchema :=
          List.find (fun item => bool_decide (item = entity)) tables |})
  <$> default [] entities.

(** [TypeOrmModule.forFeature]; both parameters have defaults. *)
Definition forFeature (entities : option (list EntityClassOrSchema))
    (dataSource : option DataSourceToken) (w : World)
    : World * DynamicModule InjectionToken :=
  let entities := default [] entities in
  let dataSource := default (TokenName DEFAULT_DATA_SOURCE_NAME) dataSource in
  let providers := createTypeOrmProviders (Some entities) (Some dataSource) in
  let customRepositoryEntities := getCustomRepositoryEntity entities in
  (setStorage
     (addEntitiesByDataSource getDataSourceName dataSource
        (entities ++ customRepositoryEntities) (storage w)) w,
   {| providers := providers; exports := providers |}).

End Providers.

(** ** Concrete collaborators and inputs *)

Module Fixtures.

(** A name resolution: the [name] field, else the default name. *)
Definition getDataSourceName (o : DataSourceOptions) : string :=
  default DEFAULT_DATA_SOURCE_NAME (name o).

Definition getRepositoryToken (entity : EntityClassOrSchema)
    (dataSource : option DataSourceToken) : string :=
  match entity with
  | EntityClass _ => "EntityRepository"
  | RepositoryClass _ => "CustomRepository"
  | EntitySchema _ => "SchemaRepository"
  end.

Definition getDataSourceToken (dataSource : option DataSourceToken) : string :=
  match dataSource with
  | Some (TokenName s) => s
  | Some (TokenObject o) => getDataSourceName o
  | None => DEFAULT_DATA_SOURCE_NAME
  end.

(** Every custom repository class [RepositoryClass n] manages the entity
    class [EntityClass n]. *)
Definition getCustomRepositoryEntity (l : list EntityClassOrSchema)
    : list EntityClassOrSchema :=
  omap (fun entity =>
          match entity with
          | RepositoryClass n => Some (EntityClass n)
          | _ => None
          end) l.

Definition refused : Error := mkError "ECONNREFUSED".
Definition timedOut : Error := mkError "ETIMEDOUT".

(** Postgres options with a given attempt count; the other fields are left
    out. *)
Definition postgres (retryAttempts : option Z) : TypeOrmModuleOptions :=
  mkOptions retryAttempts None None false false false None (Some "postgres")
    None.

(** Auto-load options with the configured entities given. *)
Definition autoLoad (configured : option (MixedList EntityClassOrSchema))
    : TypeOrmModuleOptions :=
  mkOptions None None None true false false None (Some "postgres") configured.

(** Keep-alive options. *)
Definition keepAlive : TypeOrmModuleOptions :=
  mkOptions None None None false true false None (Some "postgres") None.

Definition mongo : TypeOrmModuleOptions :=
  mkOptions None None None false false false None (Some "mongodb") None.

Definition connection : DataSource := mkDataSource 1 true (postgres None).
Definition mongoConnection : DataSource := mkDataSource 2 true mongo.

Definition alwaysFails : TypeOrmDataSourceFactory :=
  fun _ _ => inl refused.

(** Fails with [refused], then with [timedOut], then connects. *)
Definition failsTwice : TypeOrmDataSourceFactory :=
  fun n _ =>
    match n with
    | 0 => inl refused
    | 1 => inl timedOut
    | _ => inr connection
    end.

(** The world at process start. *)
Definition start : World := mkWorld ∅ ∅ [] [] [] [].

(** The world in which [connection] is held under the default name. *)
Definition connected : World :=
  mkWorld ∅ {[ DEFAULT_DATA_SOURCE_NAME := connection ]} [] [] [] [].

(** The world after [forFeature([Y, Z])]. *)
Definition registeredYZ : World :=
  mkWorld {[ DEFAULT_DATA_SOURCE_NAME := [EntityClass 2; EntityClass 3] ]}
    ∅ [] [] [] [].

(** A module instance whose container holds [connection]. *)
Definition coreModule (options : TypeOrmModuleOptions)
    : TypeOrmCoreModule string :=
  mkCoreModule string options (fun _ => Some connection).

(** A connection whose [close] rejects. *)
Definition closeFails (dataSource : DataSource) : option Error :=
  Some (mkError "connection already closed").

End Fixtures.

(** ** Asynchronous options providers ([TypeOrmCoreModule]) *)

(** [TypeOrmOptionsFactory]: an object with [createTypeOrmOptions], which
    resolves to the options or rejects. *)
Record TypeOrmOptionsFactory : Type := mkOptionsFactory {
  createTypeOrmOptions : option string -> Error + TypeOrmModuleOptions
}.

(** [a || b] on two optional objects: an object is truthy. *)
Definition orElse {A : Type} (a b : option A) : option A :=
  match a with
  | Some x => Some x
  | None => b
  end.

Module AsyncOptions.

(** [TypeOrmModuleAsyncOptions], without [imports].  A class of type
    [Type<TypeOrmOptionsFactory>] is used as its own injection token; [Any]
    is the type of the values the container passes to a user factory. *)
Record t (InjectionToken Any : Type) : Type := mk {
  name : option string;
  useExisting : option InjectionToken;
  useClass : option InjectionToken;
  useFactory : option (list Any -> Error + TypeOrmModuleOptions);
  dataSourceFactory : option TypeOrmDataSourceFactory;
  inject : option (list InjectionToken)
}.
Arguments name {InjectionToken Any} _.
Arguments useExisting {InjectionToken Any} _.
Arguments useClass {InjectionToken Any} _.
Arguments useFactory {InjectionToken Any} _.
Arguments dataSourceFactory {InjectionToken Any} _.
Arguments inject {InjectionToken Any} _.

End AsyncOptions.

(** The object literals that [createAsyncProviders] returns.  The two factory
    shapes differ in what the container passes to [useFactory]: the values of
    the user's [inject] list, or the resolved options factory. *)
Inductive AsyncProvider (InjectionToken Any : Type) : Type :=
| UserFactoryProvider (provide : InjectionToken)
    (useFactory : list Any -> Error + TypeOrmModuleOptions)
    (inject : list InjectionToken)
| OptionsFactoryProvider (provide : InjectionToken)
    (useFactory : TypeOrmOptionsFactory -> Error + TypeOrmModuleOptions)
    (inject : list (option InjectionToken))
| ClassProvider (provide : option InjectionToken)
    (useClass : option InjectionToken).
Arguments UserFactoryProvider {InjectionToken Any} _ _ _.
Arguments OptionsFactoryProvider {InjectionToken Any} _ _ _.
Arguments ClassProvider {InjectionToken Any} _ _.

(** The [provide] field of a provider *)
Definition providedToken {InjectionToken Any : Type}
    (p : AsyncProvider InjectionToken Any) : option InjectionToken :=
  match p with
  | UserFactoryProvider provide _ _ => Some provide
  | OptionsFactoryProvider provide _ _ => Some provide
  | ClassProvider provide _ => provide
  end.

(** The [inject] field of a provider; a class provider has none. *)
Definition injectedTokens {InjectionToken Any : Type}
    (p : AsyncProvider InjectionToken Any) : list (option InjectionToken) :=
  match p with
  | UserFactoryProvider _ _ inject => Some <$> inject
  | OptionsFactoryProvider _ _ inject => inject
  | ClassProvider _ _ => []
  end.

Section AsyncProviders.

Variable InjectionToken Any : Type.

(** The constant [TYPEORM_MODULE_OPTIONS] of [typeorm.constants] is not
    among the sources. *)
Variable TYPEORM_MODULE_OPTIONS : InjectionToken.

(** [TypeOrmCoreModule.createAsyncOptionsProvider] *)
Definition createAsyncOptionsProvider
    (options : AsyncOptions.t InjectionToken Any)
    : AsyncProvider InjectionToken Any :=
  match AsyncOptions.useFactory options with
  | Some useFactory =>
      UserFactoryProvider TYPEORM_MODULE_OPTIONS useFactory
        (default [] (AsyncOptions.inject options))
  | None =>
      let inject :=
        [orElse (AsyncOptions.useClass options)
           (AsyncOptions.useExisting options)] in
      OptionsFactoryProvider TYPEORM_MODULE_OPTIONS
        (fun optionsFactory =>
           createTypeOrmOptions optionsFactory (AsyncOptions.name options))
        inject
  end.

(** [TypeOrmCoreModule.createAsyncProviders] *)
Definition createAsyncProviders
    (options : AsyncOptions.t InjectionToken Any)
    : list (AsyncProvider InjectionToken Any) :=
  if bool_decide (is_Some (AsyncOptions.useExisting options))
     || bool_decide (is_Some (AsyncOptions.useFactory options))
  then [createAsyncOptionsProvider options]
  else
    let useClass := AsyncOptions.useClass options in
    [createAsyncOptionsProvider options; ClassProvider useClass useClass].

End AsyncProviders.

(** ** Sequences of feature registrations *)

Section Features.

Variable InjectionToken : Type.
Variable getDataSourceName : DataSourceOptions -> string.
Variable getRepositoryToken :
  EntityClassOrSchema -> option DataSourceToken -> InjectionToken.
Variable getDataSourceToken : option DataSourceToken -> InjectionToken.
Variable tables : list EntityClassOrSchema.
Variable getCustomRepositoryEntity :
  list EntityClassOrSchema -> list EntityClassOrSchema.

(** The world after a sequence of [forFeature] calls, first call first. *)
Definition forFeatureAll
    (calls : list (option (list EntityClassOrSchema) * option DataSourceToken))
    (w : World) : World :=
  foldl
    (fun acc c =>
       (forFeature InjectionToken getDataSourceName getRepositoryToken
          getDataSourceToken tables getCustomRepositoryEntity c.1 c.2 acc).1)
    w calls.

End Features.

(** The configured entities as a list, none configured being the empty list. *)
Definition configuredEntities (options : TypeOrmModuleOptions)
    : list EntityClassOrSchema :=
  default [] (Object_values <$> entities options).

(** ** More concrete inputs *)

Module Samples.

(** Auto-load options without a driver type. *)
Definition untyped : TypeOrmModuleOptions :=
  mkOptions (Some 3%Z) None None true false false None None
    (Some (ArrayForm [EntityClass 1])).

(** A module instance whose container holds no connection. *)
Definition emptyModule (options : TypeOrmModuleOptions)
    : TypeOrmCoreModule string :=
  mkCoreModule string options (fun _ => None).

(** An options factory that resolves to postgres options. *)
Definition configService : TypeOrmOptionsFactory :=
  mkOptionsFactory (fun _ => inr (Fixtures.postgres None)).

(** [useClass] and [useExisting] both given, no [useFactory]. *)
Definition classAndExisting : AsyncOptions.t string nat :=
  AsyncOptions.mk string nat None (Some "ExistingConfig") (Some "ConfigClass")
    None None None.

(** [useClass] alone. *)
Definition classOnly : AsyncOptions.t string nat :=
  AsyncOptions.mk string nat None None (Some "ConfigClass") None None None.

(** A user factory, given together with [useClass] and an [inject] list. *)
Definition userFactory (args : list nat) : Error + TypeOrmModuleOptions :=
  inr (Fixtures.postgres (Some (Z.of_nat (length args)))).

Definition factoryAndClass : AsyncOptions.t string nat :=
  AsyncOptions.mk string nat None None (Some "ConfigClass") (Some userFactory)
    None (Some ["ConfigService"]).

End Samples.

(** * Properties *)

(** ** Entity registry *)

Lemma includes_spec (collection : list EntityClassOrSchema) entity :
  includes collection entity = true ↔ entity ∈ collection.
Proof. unfold includes. by rewrite bool_decide_eq_true. Qed.

(** The accumulation keeps what is stored and appends, in order of first
    appearance, the entities that are not stored yet. *)
Lemma foldl_pushNew (l collection : list EntityClassOrSchema) :
  foldl pushNew collection l =
  collection ++ filter (fun y => y ∉ collection) (firstOccurrences l).
Proof.
  revert collection. induction l as [|x t IH]; intros collection; simpl.
  - by rewrite filter_nil, app_nil_r.
  - rewrite IH. unfold pushNew.
    destruct (includes collection x) eqn:Hin.
    + apply includes_spec in Hin.
      rewrite filter_cons_False by (intros Hn; by apply Hn).
      rewrite list_filter_filter. f_equal.
      apply list_filter_iff. intros y; simpl. split; [|by intros [? _]].
      intros Hy. split; [done|]. intros ->. by apply Hy.
    + assert (x ∉ collection) as Hnin.
      { intros Hx. apply includes_spec in Hx. congruence. }
      rewrite filter_cons_True by done.
      rewrite list_filter_filter, <- app_assoc. simpl. do 2 f_equal.
      apply list_filter_iff. intros y; simpl.
      rewrite elem_of_app, list_elem_of_singleton. tauto.
Qed.

Lemma firstOccurrences_elem_of (l : list EntityClassOrSchema) x :
  x ∈ firstOccurrences l ↔ x ∈ l.
Proof.
  induction l as [|y t IH]; simpl; [done|].
  rewrite !elem_of_cons, list_elem_of_filter, IH.
  destruct (decide (x = y)); tauto.
Qed.

Lemma firstOccurrences_NoDup (l : list EntityClassOrSchema) :
  NoDup (firstOccurrences l).
Proof.
  induction l as [|y t IH]; simpl; [constructor|].
  constructor.
  - rewrite list_elem_of_filter. tauto.
  - by apply NoDup_filter.
Qed.

Lemma filter_ne_absent (l : list EntityClassOrSchema) x :
  x ∉ l → filter (fun y => y ≠ x) l = l.
Proof.
  induction l as [|y t IH]; intros Hx; [done|].
  rewrite filter_cons_True.
  - f_equal. apply IH. intros Hin. apply Hx. by right.
  - intros ->. apply Hx. by left.
Qed.

(** A list without duplicates is its own list of first occurrences. *)
Lemma firstOccurrences_id (l : list EntityClassOrSchema) :
  NoDup l → firstOccurrences l = l.
Proof.
  induction 1 as [|x t Hx Hnd IH]; simpl; [done|].
  by rewrite IH, filter_ne_absent.
Qed.

Section RegistryFacts.

Variable getDataSourceName : DataSourceOptions -> string.

(** [register] and [lookup] of 4.2 at the name resolution in force *)
Local Abbreviation keyOf := (resolveKey getDataSourceName).
Local Abbreviation register := (addEntitiesByDataSource getDataSourceName).
Local Abbreviation registered := (getEntitiesByDataSource getDataSourceName).

Lemma registered_register_same dataSource entities st :
  registered dataSource (register dataSource entities st) =
  foldl pushNew (registered dataSource st) entities.
Proof.
  unfold getEntitiesByDataSource, addEntitiesByDataSource; simpl.
  by rewrite lookup_insert_eq.
Qed.

Lemma registered_register_key dataSource dataSource' entities st :
  keyOf dataSource' = keyOf dataSource →
  registered dataSource (register dataSource' entities st) =
  foldl pushNew (registered dataSource st) entities.
Proof.
  intros Hkey. unfold getEntitiesByDataSource, addEntitiesByDataSource; simpl.
  by rewrite Hkey, lookup_insert_eq.
Qed.

Lemma registered_register_other dataSource dataSource' entities st :
  keyOf dataSource' ≠ keyOf dataSource →
  registered dataSource (register dataSource' entities st) =
  registered dataSource st.
Proof.
  intros Hne. unfold getEntitiesByDataSource, addEntitiesByDataSource; simpl.
  by rewrite lookup_insert_ne.
Qed.

(** After any sequence of registrations, what is stored under a key is what
    was stored before, followed by the new entities passed for that key. *)
Lemma registered_registerAll calls st key :
  registered (TokenName key) (registerAll getDataSourceName calls st) =
  foldl pushNew (registered (TokenName key) st)
    (registeredUnder getDataSourceName key calls).
Proof.
  revert st. induction calls as [|[token l] calls IH]; intros st; [done|].
  unfold registerAll, registeredUnder in *. simpl foldl at 1. rewrite IH.
  rewrite filter_cons. simpl. case_decide as Hkey.
  - rewrite fmap_cons. simpl. rewrite foldl_app. f_equal.
    by apply registered_register_key.
  - f_equal. by apply registered_register_other.
Qed.

Lemma registered_empty dataSource : registered dataSource ∅ = [].
Proof. unfold getEntitiesByDataSource. by rewrite lookup_empty. Qed.

(** A registration only ever extends what is stored, under every key. *)
Lemma register_prefix dataSource dataSource' entities st :
  registered dataSource st `prefix_of`
  registered dataSource (register dataSource' entities st).
Proof.
  destruct (decide (keyOf dataSource' = keyOf dataSource)) as [Hkey|Hne].
  - rewrite registered_register_key by done. rewrite foldl_pushNew.
    by apply prefix_app_r.
  - by rewrite registered_register_other.
Qed.

Lemma foldl_pushNew_nil (l : list EntityClassOrSchema) :
  foldl pushNew [] l = firstOccurrences l.
Proof.
  rewrite foldl_pushNew. simpl.
  induction (firstOccurrences l) as [|x t IH]; [done|].
  rewrite filter_cons_True; [by f_equal|]. by intros ?%elem_of_nil.
Qed.

Lemma filter_all {A : Type} (P : A → Prop) `{!∀ x, Decision (P x)}
    (l : list A) :
  Forall P l → filter P l = l.
Proof.
  induction 1 as [|x t Hx _ IH]; [done|].
  by rewrite filter_cons_True, IH.
Qed.

Lemma filter_none {A : Type} (P : A → Prop) `{!∀ x, Decision (P x)}
    (l : list A) :
  Forall (fun x => ¬ P x) l → filter P l = [].
Proof.
  induction 1 as [|x t Hx _ IH]; [done|].
  by rewrite filter_cons_False.
Qed.

(** Accumulating a list that brings an entity not stored yet makes the stored
    collection strictly longer. *)
Lemma foldl_pushNew_longer (l collection : list EntityClassOrSchema) e :
  e ∈ l → e ∉ collection →
  length collection < length (foldl pushNew collection l).
Proof.
  intros Hl Hc. rewrite foldl_pushNew, length_app.
  assert (e ∈ filter (fun y => y ∉ collection) (firstOccurrences l)) as Hin.
  { apply list_elem_of_filter. split; [done|].
    by apply firstOccurrences_elem_of. }
  destruct (filter _ _); [by apply elem_of_nil in Hin|]. simpl. lia.
Qed.

(** C6.  For every sequence of register calls under one connection key, made
    on the registry as created, the stored collection is the concatenation of
    the registered lists in registration order with duplicates removed by
    identity (the first occurrence stays, so the collection has no duplicate
    and holds exactly the registered entities); registering [[A; B]] and then
    [[C]] under "default" yields [[A; B; C]]; and no registration overwrites
    what is stored: the earlier collection is a prefix of the later one. *)
Theorem register_accumulates_in_order
    (calls : list (DataSourceToken * list EntityClassOrSchema))
    (key : string) (A B C : EntityClassOrSchema) :
  Forall (fun c => keyOf c.1 = key) calls →
  NoDup [A; B; C] →
  registered (TokenName key) (registerAll getDataSourceName calls ∅) =
    firstOccurrences (concat calls.*2)
  ∧ NoDup (registered (TokenName key) (registerAll getDataSourceName calls ∅))
  ∧ (∀ x, x ∈ registered (TokenName key)
                (registerAll getDataSourceName calls ∅) ↔
          x ∈ concat calls.*2)
  ∧ registered (TokenName "default")
      (register (TokenName "default") [C]
         (register (TokenName "default") [A; B] ∅)) = [A; B; C]
  ∧ (∀ st dataSource entities dataSource',
       registered dataSource' st `prefix_of`
       registered dataSource' (register dataSource entities st)).
Proof.
  intros Hkey Hnd.
  assert (registered (TokenName key)
            (registerAll getDataSourceName calls ∅) =
          firstOccurrences (concat calls.*2)) as Heq.
  { rewrite registered_registerAll, registered_empty, foldl_pushNew_nil.
    unfold registeredUnder. by rewrite filter_all. }
  rewrite Heq. split; [done|]. split; [apply firstOccurrences_NoDup|].
  split; [intros x; apply firstOccurrences_elem_of|]. split.
  - rewrite !registered_register_same, registered_empty.
    rewrite <- foldl_app, foldl_pushNew_nil. simpl app.
    by apply firstOccurrences_id.
  - intros st dataSource l dataSource'. apply register_prefix.
Qed.

(** C7.  A key under which nothing was ever registered looks up to the empty
    collection, whatever was registered under other keys; the lookup is a
    total function, there is no error to return. *)
Theorem lookup_of_unregistered_key_is_empty
    (calls : list (DataSourceToken * list EntityClassOrSchema))
    (key : string) :
  Forall (fun c => keyOf c.1 ≠ key) calls →
  registered (TokenName key) (registerAll getDataSourceName calls ∅) = [].
Proof.
  intros Hkey.
  rewrite registered_registerAll, registered_empty, foldl_pushNew_nil.
  unfold registeredUnder. by rewrite filter_none.
Qed.

End RegistryFacts.

(** ** Retry protocol and connection bootstrap *)

Lemma retryLoop_eq {A : Type} remaining delay label verbose toRetry
    (source : Async A) w :
  retryLoop remaining delay label verbose toRetry source w =
  match source w with
  | (w1, inr value) => (w1, inr value)
  | (w1, inl error) =>
      match remaining with
      | S remaining' =>
          if retryable toRetry error
          then retryLoop remaining' delay label verbose toRetry source
                 (wait delay (writeLog (retryWarning label verbose error) w1))
          else (w1, inl error)
      | O => (w1, inl error)
      end
  end.
Proof. by destruct remaining. Qed.

Lemma afterFailures_nil arg delay label verbose w :
  afterFailures arg delay label verbose [] w = w.
Proof. destruct w. unfold afterFailures; simpl. by rewrite !app_nil_r. Qed.

Lemma afterFailures_cons arg delay label verbose e errors w :
  afterFailures arg delay label verbose errors
    (wait delay
       (writeLog (retryWarning label verbose e) (recordInvocation arg w))) =
  afterFailures arg delay label verbose (e :: errors) w.
Proof.
  unfold afterFailures; simpl. by rewrite <- !app_assoc.
Qed.

Section BootstrapFacts.

Variable getDataSourceName : DataSourceOptions -> string.
Variable createConnection : TypeOrmDataSourceFactory.

Local Abbreviation reusable := (reusableDataSource getDataSourceName).
Local Abbreviation argument := (factoryArgument getDataSourceName).
Local Abbreviation connect := (connectOnce getDataSourceName).

Lemma connect_reuse options factory token w dataSource :
  reusable options w = Some dataSource →
  connect options factory token w = (w, inr dataSource).
Proof. intros H. unfold connectOnce. by rewrite H. Qed.

Lemma connect_invoke options factory token w :
  reusable options w = None →
  connect options factory token w =
  invoke factory (argument options token w) w.
Proof.
  intros H. unfold connectOnce, factoryArgument. rewrite H.
  by repeat case_match.
Qed.

Lemma reusable_frame options w w' :
  manager w' = manager w → reusable options w' = reusable options w.
Proof. intros H. unfold reusableDataSource. by rewrite H. Qed.

Lemma argument_frame options token w w' :
  storage w' = storage w → argument options token w' = argument options token w.
Proof.
  intros H. unfold factoryArgument, resolveEntities. by rewrite H.
Qed.

(** Failed attempts that are each retried: the loop goes on from the world
    [afterFailures] with as many attempts less. *)
Lemma retryLoop_failures options factory token delay label verbose toRetry
    errors :
  ∀ remaining w,
    length errors ≤ remaining →
    reusable options w = None →
    (∀ i e, errors !! i = Some e →
       factory (length (invocations w) + i) (argument options token w) = inl e
       ∧ retryable toRetry e = true) →
    retryLoop remaining delay label verbose toRetry
      (connect options factory token) w =
    retryLoop (remaining - length errors) delay label verbose toRetry
      (connect options factory token)
      (afterFailures (argument options token w) delay label verbose
         errors w).
Proof.
  induction errors as [|e errors IH]; intros remaining w Hlen Hreuse Hfail.
  - by rewrite afterFailures_nil, Nat.sub_0_r.
  - destruct remaining as [|remaining]; [simpl in Hlen; lia|].
    etrans; [apply retryLoop_eq|].
    rewrite connect_invoke by done. unfold invoke.
    destruct (Hfail 0 e eq_refl) as [Hf Hr].
    rewrite Nat.add_0_r in Hf. rewrite Hf, Hr.
    set (w1 := wait _ _).
    assert (argument options token w1 = argument options token w) as Harg
      by by apply argument_frame.
    rewrite IH.
    + rewrite Harg. unfold w1. by rewrite afterFailures_cons.
    + simpl in Hlen. lia.
    + by rewrite (reusable_frame options w w1).
    + intros i e' Hi. rewrite Harg.
      destruct (Hfail (S i) e' Hi) as [Hf' Hr']. split; [|done].
      rewrite <- Hf'. f_equal. unfold w1; simpl. rewrite length_app; simpl. lia.
Qed.

(** An attempt that succeeds ends the loop. *)
Lemma retryLoop_success options factory token delay label verbose toRetry
    remaining w dataSource :
  reusable options w = None →
  factory (length (invocations w)) (argument options token w)
    = inr dataSource →
  retryLoop remaining delay label verbose toRetry
    (connect options factory token) w =
  (recordInvocation (argument options token w) w, inr dataSource).
Proof.
  intros Hreuse Hf. rewrite retryLoop_eq, connect_invoke by done.
  unfold invoke. by rewrite Hf.
Qed.

(** A failed attempt is fatal when no attempt remains or the predicate
    rejects the error. *)
Lemma retryLoop_fatal options factory token delay label verbose toRetry
    remaining w e :
  reusable options w = None →
  factory (length (invocations w)) (argument options token w) = inl e →
  remaining = 0 ∨ retryable toRetry e = false →
  retryLoop remaining delay label verbose toRetry
    (connect options factory token) w =
  (recordInvocation (argument options token w) w, inl e).
Proof.
  intros Hreuse Hf Hstop. rewrite retryLoop_eq, connect_invoke by done.
  unfold invoke. rewrite Hf.
  destruct remaining as [|remaining]; [done|].
  destruct Hstop as [?|Hr]; [done|]. by rewrite Hr.
Qed.

(** The shape of every run in which no connection is reused: some attempts
    failed and were retried, each with its warning and its wait, and one last
    attempt ended the run; all called the factory with the same argument. *)
Lemma retryLoop_shape options factory token delay label verbose toRetry
    remaining :
  ∀ w,
    reusable options w = None →
    ∃ errors,
      length errors ≤ remaining ∧
      (retryLoop remaining delay label verbose toRetry
         (connect options factory token) w).1 =
      recordInvocation (argument options token w)
        (afterFailures (argument options token w) delay label verbose
           errors w).
Proof.
  induction remaining as [|remaining IH]; intros w Hreuse.
  - exists []. split; [done|]. rewrite afterFailures_nil.
    rewrite retryLoop_eq, connect_invoke by done. unfold invoke.
    by destruct (factory _ _).
  - rewrite retryLoop_eq, connect_invoke by done. unfold invoke.
    destruct (factory _ _) as [e|dataSource].
    + destruct (retryable toRetry e).
      * set (w1 := wait _ _).
        destruct (IH w1) as (errors & Hlen & Hrun).
        { by rewrite (reusable_frame options w w1). }
        exists (e :: errors). split; [simpl; lia|].
        rewrite Hrun, (argument_frame options token w w1) by done.
        unfold w1. by rewrite afterFailures_cons.
      * exists []. split; [simpl; lia|]. by rewrite afterFailures_nil.
    + exists []. split; [simpl; lia|]. by rewrite afterFailures_nil.
Qed.

Local Abbreviation bootstrap :=
  (createDataSourceFactory getDataSourceName createConnection).

Lemma bootstrap_eq options dataSourceFactory w :
  bootstrap options dataSourceFactory w =
  retryLoop (Z.to_nat (attempts options - 1)) (delayMs options)
    (getDataSourceName options) (verboseRetryLog options) (toRetry options)
    (connect options (default createConnection dataSourceFactory)
       (getDataSourceName options)) w.
Proof. done. Qed.

(** C1.  With [attempts = N > 0] and no connection to reuse, a connection
    factory that fails [N - 1] times with errors the retry predicate accepts
    and then succeeds makes the bootstrap return the successful connection;
    exactly [N - 1] retry warnings are logged, one per failed attempt and in
    their order, each followed by the same wait, and the factory is called
    [N] times. *)
Theorem fails_then_succeeds_returns_connection
    (options : TypeOrmModuleOptions)
    (dataSourceFactory : option TypeOrmDataSourceFactory)
    (w : World) (N : Z) (errors : list Error) (dataSource : DataSource) :
  attempts options = N →
  (0 < N)%Z →
  Z.of_nat (length errors) = (N - 1)%Z →
  reusable options w = None →
  (∀ i e a, errors !! i = Some e →
     default createConnection dataSourceFactory
       (length (invocations w) + i) a = inl e
     ∧ retryable (toRetry options) e = true) →
  (∀ a, default createConnection dataSourceFactory
          (length (invocations w) + length errors) a = inr dataSource) →
  (bootstrap options dataSourceFactory w).2 = inr dataSource
  ∧ logged (bootstrap options dataSourceFactory w).1 =
      logged w ++
      (retryWarning (getDataSourceName options) (verboseRetryLog options)
         <$> errors)
  ∧ Z.of_nat (length (logged (bootstrap options dataSourceFactory w).1)) =
      (Z.of_nat (length (logged w)) + (N - 1))%Z
  ∧ waited (bootstrap options dataSourceFactory w).1 =
      waited w ++ replicate (Z.to_nat (N - 1)) (delayMs options)
  ∧ Z.of_nat (length (invocations (bootstrap options dataSourceFactory w).1)) =
      (Z.of_nat (length (invocations w)) + N)%Z.
Proof.
  intros HN Hpos Hlen Hreuse Hfail Hok.
  rewrite bootstrap_eq, HN.
  rewrite (retryLoop_failures _ _ _ _ _ _ _ errors);
    [|lia|done|by intros i e Hi; apply Hfail].
  set (arg := argument options (getDataSourceName options) w).
  set (w' := afterFailures _ _ _ _ _ _).
  assert (reusable options w' = None) as Hreuse'
    by by rewrite (reusable_frame options w w').
  assert (argument options (getDataSourceName options) w' = arg) as Harg
    by by apply argument_frame.
  rewrite (retryLoop_success _ _ _ _ _ _ _ _ _ dataSource); [|done|].
  - rewrite Harg. simpl.
    rewrite !length_app, length_fmap, length_replicate.
    replace (Z.to_nat (N - 1)) with (length errors) by lia.
    repeat split; try done; simpl length; lia.
  - rewrite Harg. unfold w'; simpl.
    rewrite length_app, length_replicate. apply Hok.
Qed.

(** C2, amended.  With no connection to reuse and a connection factory that
    always fails with errors the retry predicate accepts, the bootstrap raises
    after exactly [max N 1] calls of the factory: [N] calls for
    [attempts = N >= 1], and one call for [N <= 0].  The error raised is the
    one of the last call, as the factory produced it. *)
Theorem always_failing_factory_raises_last_error
    (options : TypeOrmModuleOptions)
    (dataSourceFactory : option TypeOrmDataSourceFactory)
    (w : World) (N : Z) (errorAt : nat → Error) :
  attempts options = N →
  reusable options w = None →
  (∀ i a, default createConnection dataSourceFactory
            (length (invocations w) + i) a = inl (errorAt i)) →
  (∀ i, retryable (toRetry options) (errorAt i) = true) →
  (bootstrap options dataSourceFactory w).2 =
    inl (errorAt (Z.to_nat (Z.max N 1) - 1))
  ∧ Z.of_nat (length (invocations (bootstrap options dataSourceFactory w).1)) =
      (Z.of_nat (length (invocations w)) + Z.max N 1)%Z.
Proof.
  intros HN Hreuse Hfail Hretry.
  rewrite bootstrap_eq, HN.
  replace (Z.to_nat (Z.max N 1) - 1) with (Z.to_nat (N - 1)) by lia.
  set (k := Z.to_nat (N - 1)).
  set (errors := errorAt <$> seq 0 k).
  assert (length errors = k) as Hlen
    by (unfold errors; by rewrite length_fmap, length_seq).
  rewrite (retryLoop_failures _ _ _ _ _ _ _ errors); [|lia|done|].
  - set (arg := argument options (getDataSourceName options) w).
    set (w' := afterFailures _ _ _ _ _ _).
    assert (argument options (getDataSourceName options) w' = arg) as Harg
      by by apply argument_frame.
    rewrite (retryLoop_fatal _ _ _ _ _ _ _ _ _ (errorAt k)).
    + rewrite Harg. simpl.
      rewrite !length_app, length_replicate, Hlen. simpl length.
      repeat split; try done. unfold k. lia.
    + by rewrite (reusable_frame options w w').
    + rewrite Harg. unfold w'; simpl.
      rewrite length_app, length_replicate, Hlen. apply Hfail.
    + left. lia.
  - intros i e Hi. unfold errors in Hi.
    rewrite list_lookup_fmap in Hi.
    destruct (seq 0 k !! i) as [j|] eqn:Hj; [|done].
    apply lookup_seq in Hj as [-> _]. simpl in Hi.
    injection Hi as <-. split; [apply Hfail | apply Hretry].
Qed.


Lemma reusable_Some options w dataSource :
  reusable options w = Some dataSource ↔
  keepDataSourceAlive options = true
  ∧ manager w !! getDataSourceName options = Some dataSource
  ∧ isInitialized dataSource = true.
Proof.
  unfold reusableDataSource.
  destruct (keepDataSourceAlive options);
    [|split; [done|by intros (? & _)]].
  destruct (manager w !! getDataSourceName options) as [d|];
    [|split; [done|by intros (_ & ? & _)]].
  destruct (isInitialized d) eqn:Hinit; split.
  - by intros [= <-].
  - by intros (_ & [= <-] & _).
  - done.
  - intros (_ & [= <-] & ?). congruence.
Qed.

(** C4.  With the keep-alive flag set and an initialized connection held by
    the connection manager under the resolved logical name, the bootstrap
    returns that very connection and leaves the world as it was: the factory
    is not called, nothing is logged.  In every other case the factory is
    called, so this is the only case in which creation is skipped. *)
Theorem keep_alive_reuses_initialized_connection
    (options : TypeOrmModuleOptions)
    (dataSourceFactory : option TypeOrmDataSourceFactory) (w : World) :
  (∀ dataSource,
     keepDataSourceAlive options = true →
     manager w !! getDataSourceName options = Some dataSource →
     isInitialized dataSource = true →
     bootstrap options dataSourceFactory w = (w, inr dataSource))
  ∧ (invocations (bootstrap options dataSourceFactory w).1 = invocations w ↔
     ∃ dataSource,
       keepDataSourceAlive options = true
       ∧ manager w !! getDataSourceName options = Some dataSource
       ∧ isInitialized dataSource = true).
Proof.
  assert (∀ dataSource, reusable options w = Some dataSource →
            bootstrap options dataSourceFactory w = (w, inr dataSource))
    as Hskip.
  { intros dataSource Hreuse.
    by rewrite bootstrap_eq, retryLoop_eq, (connect_reuse _ _ _ _ dataSource). }
  split.
  - intros dataSource Hkeep Hheld Hinit. apply Hskip.
    by apply reusable_Some.
  - split.
    + intros Hsame.
      destruct (reusable options w) as [dataSource|] eqn:Hreuse.
      { exists dataSource. by apply reusable_Some. }
      exfalso. rewrite bootstrap_eq in Hsame.
      destruct (retryLoop_shape options
                  (default createConnection dataSourceFactory)
                  (getDataSourceName options) (delayMs options)
                  (getDataSourceName options) (verboseRetryLog options)
                  (toRetry options) (Z.to_nat (attempts options - 1)) w
                  Hreuse) as (errors & _ & Hrun).
      rewrite Hrun in Hsame. simpl in Hsame.
      apply (f_equal length) in Hsame. rewrite !length_app in Hsame.
      simpl in Hsame. lia.
    + intros (dataSource & Hheld). apply reusable_Some in Hheld.
      by rewrite (Hskip dataSource).
Qed.

(** C5.  With auto-load enabled, a driver type configured and no connection
    to reuse, every call of the connection factory receives options whose
    entity list is the configured entities, in configured order (a keyed map
    by its values), followed by what the registry holds for the resolved
    logical name; with no entities configured the list is the registry's
    alone.  The other fields are those of the options given.  The factory is
    called at least once. *)
Theorem auto_load_merges_configured_then_registered
    (options : TypeOrmModuleOptions)
    (dataSourceFactory : option TypeOrmDataSourceFactory) (w : World) :
  autoLoadEntities options = true →
  truthy (type options) = true →
  reusable options w = None →
  ∃ retries passed,
    invocations (bootstrap options dataSourceFactory w).1 =
      invocations w ++ replicate (S retries) (Some passed)
    ∧ entities passed =
        Some (ArrayForm
          match entities options with
          | Some (ArrayForm items) =>
              items ++
              getEntitiesByDataSource getDataSourceName
                (TokenName (getDataSourceName options)) (storage w)
          | Some (KeyedForm props) =>
              props.*2 ++
              getEntitiesByDataSource getDataSourceName
                (TokenName (getDataSourceName options)) (storage w)
          | None =>
              getEntitiesByDataSource getDataSourceName
                (TokenName (getDataSourceName options)) (storage w)
          end)
    ∧ retryAttempts passed = retryAttempts options
    ∧ retryDelay passed = retryDelay options
    ∧ toRetry passed = toRetry options
    ∧ autoLoadEntities passed = autoLoadEntities options
    ∧ keepDataSourceAlive passed = keepDataSourceAlive options
    ∧ verboseRetryLog passed = verboseRetryLog options
    ∧ name passed = name options
    ∧ type passed = type options.
Proof.
  intros Hauto Htype Hreuse. rewrite bootstrap_eq.
  destruct (retryLoop_shape options
              (default createConnection dataSourceFactory)
              (getDataSourceName options) (delayMs options)
              (getDataSourceName options) (verboseRetryLog options)
              (toRetry options) (Z.to_nat (attempts options - 1)) w
              Hreuse) as (errors & _ & Hrun).
  exists (length errors),
    (withEntities options
       (resolveEntities getDataSourceName options (getDataSourceName options)
          w)).
  split.
  - rewrite Hrun. cbn [recordInvocation afterFailures invocations].
    rewrite <- app_assoc, <- replicate_S_end. do 2 f_equal.
    unfold factoryArgument. by rewrite Hauto, Htype.
  - split; [|by repeat split].
    cbn [withEntities entities]. unfold resolveEntities.
    by destruct (entities options) as [[?|?]|].
Qed.

End BootstrapFacts.

(** ** Shutdown *)

Section ShutdownFacts.

Variable InjectionToken : Type.
Variable getDataSourceToken : option DataSourceToken -> InjectionToken.
Variable closeOutcome : DataSource -> option Error.

Local Abbreviation shutdown :=
  (onApplicationShutdown InjectionToken getDataSourceToken closeOutcome).

(** C8.  When the container holds the connection, the shutdown hook calls
    [close] on it once if the keep-alive flag is not set and not at all if it
    is; whatever [close] does, the hook completes normally: an error of
    [close] is written to the log and nothing else happens, no second
    [close], no wait, no call of the connection factory. *)
Theorem shutdown_closes_unless_kept_alive
    (this : TypeOrmCoreModule InjectionToken) (w : World)
    (dataSource : DataSource) :
  this_moduleRef this
    (getDataSourceToken (Some (TokenObject (this_options this))))
    = Some dataSource →
  (shutdown this w).2 = inr tt
  ∧ closed (shutdown this w).1 =
      closed w ++
      (if keepDataSourceAlive (this_options this) then [] else [dataSource])
  ∧ logged (shutdown this w).1 =
      logged w ++
      (if keepDataSourceAlive (this_options this) then []
       else match closeOutcome dataSource with
            | Some e => [ShutdownError (message e)]
            | None => []
            end)
  ∧ waited (shutdown this w).1 = waited w
  ∧ invocations (shutdown this w).1 = invocations w.
Proof.
  intros Hheld. unfold onApplicationShutdown, tryCatch, close.
  rewrite Hheld.
  destruct (keepDataSourceAlive (this_options this)); simpl.
  - by rewrite !app_nil_r.
  - destruct (closeOutcome dataSource); simpl; by rewrite ?app_nil_r.
Qed.

End ShutdownFacts.

(** ** Repository providers and feature registration *)

Section FeatureFacts.

Variable InjectionToken : Type.
Variable getDataSourceName : DataSourceOptions -> string.
Variable getRepositoryToken :
  EntityClassOrSchema -> option DataSourceToken -> InjectionToken.
Variable getDataSourceToken : option DataSourceToken -> InjectionToken.
Variable tables : list EntityClassOrSchema.
Variable getCustomRepositoryEntity :
  list EntityClassOrSchema -> list EntityClassOrSchema.

Local Abbreviation providersOf :=
  (createTypeOrmProviders InjectionToken getRepositoryToken getDataSourceToken
     tables).
Local Abbreviation feature :=
  (forFeature InjectionToken getDataSourceName getRepositoryToken
     getDataSourceToken tables getCustomRepositoryEntity).
Local Abbreviation registered := (getEntitiesByDataSource getDataSourceName).

(** C9, amended.  The provider built for a descriptor that is not a custom
    repository class resolves the repository through the document-style
    lookup when the driver type of the connection is mongodb and through the
    relational lookup otherwise; the provider built for a custom repository
    class uses the relational lookup whatever the driver type is.  The two
    lookups are distinct. *)
Theorem provider_lookup_by_driver_family
    (entities : option (list EntityClassOrSchema))
    (dataSource : option DataSourceToken) (i : nat)
    (entity : EntityClassOrSchema) (connection : DataSource) :
  default [] entities !! i = Some entity →
  ∃ provider,
    providersOf entities dataSource !! i = Some provider
    ∧ provide provider = getRepositoryToken entity dataSource
    ∧ (isCustomRepository entity = false →
       type (options connection) = Some "mongodb" →
       useFactory provider connection = getMongoRepository connection entity)
    ∧ (isCustomRepository entity = false →
       type (options connection) ≠ Some "mongodb" →
       useFactory provider connection = getRepository connection entity)
    ∧ (isCustomRepository entity = true →
       useFactory provider connection = getRepository connection entity)
    ∧ getRepository connection entity ≠ getMongoRepository connection entity.
Proof.
  intros Hi. eexists. split.
  { unfold createTypeOrmProviders. by rewrite list_lookup_fmap, Hi. }
  simpl. unfold repositoryFactory. repeat split.
  - intros -> Hmongo. by rewrite bool_decide_eq_true_2.
  - intros -> Hother. by rewrite bool_decide_eq_false_2.
  - by intros ->.
  - done.
Qed.

(** C10.  A feature registration accumulates under the resolved key first the
    descriptors passed by the caller and after them the entity classes derived
    from the custom repository classes among them; when one of the derived
    classes is neither passed nor stored already, the stored list is strictly
    longer than the one the caller's list alone would have given. *)
Theorem forFeature_registers_derived_entities_after_passed
    (entities : option (list EntityClassOrSchema))
    (dataSource : option DataSourceToken) (w : World)
    (e : EntityClassOrSchema) :
  e ∈ getCustomRepositoryEntity (default [] entities) →
  e ∉ default [] entities →
  e ∉ registered (default (TokenName DEFAULT_DATA_SOURCE_NAME) dataSource)
        (storage w) →
  registered (default (TokenName DEFAULT_DATA_SOURCE_NAME) dataSource)
    (storage (feature entities dataSource w).1) =
  foldl pushNew
    (foldl pushNew
       (registered (default (TokenName DEFAULT_DATA_SOURCE_NAME) dataSource)
          (storage w))
       (default [] entities))
    (getCustomRepositoryEntity (default [] entities))
  ∧ length
      (foldl pushNew
         (registered (default (TokenName DEFAULT_DATA_SOURCE_NAME) dataSource)
            (storage w))
         (default [] entities)) <
    length
      (registered (default (TokenName DEFAULT_DATA_SOURCE_NAME) dataSource)
         (storage (feature entities dataSource w).1)).
Proof.
  intros Hderived Hpassed Hstored.
  assert (registered (default (TokenName DEFAULT_DATA_SOURCE_NAME) dataSource)
            (storage (feature entities dataSource w).1) =
          foldl pushNew
            (foldl pushNew
               (registered
                  (default (TokenName DEFAULT_DATA_SOURCE_NAME) dataSource)
                  (storage w))
               (default [] entities))
            (getCustomRepositoryEntity (default [] entities))) as Heq.
  { unfold forFeature; simpl.
    by rewrite registered_register_same, foldl_app. }
  split; [done|]. rewrite Heq.
  apply (foldl_pushNew_longer _ _ e); [done|].
  rewrite foldl_pushNew, elem_of_app, list_elem_of_filter.
  rewrite firstOccurrences_elem_of. tauto.
Qed.

End FeatureFacts.

(** * The properties at concrete inputs *)

Section Instances.

Import Fixtures.

Local Abbreviation bootstrap :=
  (createDataSourceFactory getDataSourceName alwaysFails).
Local Abbreviation register := (addEntitiesByDataSource getDataSourceName).
Local Abbreviation registered := (getEntitiesByDataSource getDataSourceName).

(** Three attempts, a factory that fails twice and then connects: the
    connection is returned after two warnings. *)
Lemma fails_twice_then_connects :
  (bootstrap (postgres (Some 3%Z)) (Some failsTwice) start).2 = inr connection
  ∧ logged (bootstrap (postgres (Some 3%Z)) (Some failsTwice) start).1 =
      [RetryWarning "default" None; RetryWarning "default" None]
  ∧ Z.of_nat
      (length (logged (bootstrap (postgres (Some 3%Z)) (Some failsTwice)
                         start).1)) = 2%Z
  ∧ waited (bootstrap (postgres (Some 3%Z)) (Some failsTwice) start).1 =
      [3000%Z; 3000%Z]
  ∧ Z.of_nat
      (length (invocations (bootstrap (postgres (Some 3%Z)) (Some failsTwice)
                              start).1)) = 3%Z.
Proof.
  apply (fails_then_succeeds_returns_connection getDataSourceName alwaysFails
           (postgres (Some 3%Z)) (Some failsTwice) start 3
           [refused; timedOut] connection).
  - reflexivity.
  - lia.
  - reflexivity.
  - reflexivity.
  - intros [|[|i]] e a Hi; simpl in Hi; [| |discriminate Hi];
      injection Hi as <-; split; reflexivity.
  - intros a. reflexivity.
Defined.

(** Two attempts, a factory that always fails: two calls, then the error of
    the second call. *)
Lemma always_failing_with_two_attempts :
  (bootstrap (postgres (Some 2%Z)) None start).2 = inl refused
  ∧ Z.of_nat
      (length (invocations (bootstrap (postgres (Some 2%Z)) None start).1)) =
      2%Z.
Proof.
  apply (always_failing_factory_raises_last_error getDataSourceName
           alwaysFails (postgres (Some 2%Z)) None start 2 (fun _ => refused)).
  - reflexivity.
  - reflexivity.
  - intros i a. reflexivity.
  - intros i. reflexivity.
Defined.

(** C2 as stated fails at [attempts = 0]: the always-failing factory is
    called once, not zero times, before its error is raised. *)
Lemma always_failing_with_zero_attempts_calls_once :
  attempts (postgres (Some 0%Z)) = 0%Z
  ∧ (bootstrap (postgres (Some 0%Z)) None start).2 = inl refused
  ∧ length (invocations (bootstrap (postgres (Some 0%Z)) None start).1) = 1
  ∧ Z.of_nat
      (length (invocations (bootstrap (postgres (Some 0%Z)) None start).1))
    ≠ attempts (postgres (Some 0%Z)).
Proof. repeat split. by vm_compute. Qed.



(** Keep-alive with the connection held and initialized: it is returned and
    the world is untouched. *)
Lemma keep_alive_returns_held_connection :
  bootstrap keepAlive None connected = (connected, inr connection).
Proof.
  apply (proj1 (keep_alive_reuses_initialized_connection getDataSourceName
                  alwaysFails keepAlive None connected)).
  - reflexivity.
  - by vm_compute.
  - reflexivity.
Defined.

(** Explicit [[X]], registry [[Y; Z]]: the factory receives [[X; Y; Z]]. *)
Lemma auto_load_X_then_Y_Z :
  ∃ retries passed,
    invocations (bootstrap (autoLoad (Some (ArrayForm [EntityClass 1])))
                   (Some failsTwice) registeredYZ).1 =
      replicate (S retries) (Some passed)
    ∧ entities passed =
        Some (ArrayForm [EntityClass 1; EntityClass 2; EntityClass 3]).
Proof.
  destruct (auto_load_merges_configured_then_registered getDataSourceName
              alwaysFails (autoLoad (Some (ArrayForm [EntityClass 1])))
              (Some failsTwice) registeredYZ eq_refl eq_refl eq_refl)
    as (retries & passed & Hrun & Hentities & _).
  exists retries, passed. split; [exact Hrun|exact Hentities].
Defined.

(** [[A; B]] under "default", then [[C]] for options that resolve to
    "default": the lookup yields [[A; B; C]]. *)
Lemma register_A_B_then_C :
  registered (TokenName "default")
    (registerAll getDataSourceName
       [(TokenName "default", [EntityClass 1; EntityClass 2]);
        (TokenObject (postgres None), [EntityClass 3])] ∅) =
  [EntityClass 1; EntityClass 2; EntityClass 3].
Proof.
  apply (proj1 (register_accumulates_in_order getDataSourceName
                  [(TokenName "default", [EntityClass 1; EntityClass 2]);
                   (TokenObject (postgres None), [EntityClass 3])]
                  "default" (EntityClass 1) (EntityClass 2) (EntityClass 3)
                  ltac:(by repeat constructor)
                  ltac:(by apply (bool_decide_unpack _)))).
Defined.

(** Entities registered under "reporting" only: "default" looks up empty. *)
Lemma lookup_default_after_registering_reporting :
  registered (TokenName "default")
    (registerAll getDataSourceName
       [(TokenName "reporting", [EntityClass 1; EntityClass 2])] ∅) = [].
Proof.
  apply (lookup_of_unregistered_key_is_empty getDataSourceName
           [(TokenName "reporting", [EntityClass 1; EntityClass 2])]
           "default").
  repeat constructor. simpl. discriminate.
Defined.

(** Shutdown with a [close] that rejects: the hook completes, [close] was
    called once and its error is in the log. *)
Lemma shutdown_survives_failing_close :
  (onApplicationShutdown string getDataSourceToken closeFails
     (coreModule (postgres None)) start).2 = inr tt
  ∧ closed (onApplicationShutdown string getDataSourceToken closeFails
              (coreModule (postgres None)) start).1 = [connection]
  ∧ logged (onApplicationShutdown string getDataSourceToken closeFails
              (coreModule (postgres None)) start).1 =
      [ShutdownError "connection already closed"]
  ∧ waited (onApplicationShutdown string getDataSourceToken closeFails
              (coreModule (postgres None)) start).1 = []
  ∧ invocations (onApplicationShutdown string getDataSourceToken closeFails
                   (coreModule (postgres None)) start).1 = [].
Proof.
  apply (shutdown_closes_unless_kept_alive string getDataSourceToken
           closeFails (coreModule (postgres None)) start connection).
  reflexivity.
Defined.

(** An entity schema on a mongodb connection: the document-style lookup. *)
Lemma schema_on_mongodb_uses_mongo_lookup :
  ∃ provider,
    createTypeOrmProviders string getRepositoryToken getDataSourceToken []
      (Some [EntitySchema 1]) None !! 0 = Some provider
    ∧ useFactory provider mongoConnection =
        getMongoRepository mongoConnection (EntitySchema 1).
Proof.
  destruct (provider_lookup_by_driver_family string getRepositoryToken
              getDataSourceToken [] (Some [EntitySchema 1]) None 0
              (EntitySchema 1) mongoConnection eq_refl)
    as (provider & Hat & _ & Hmongo & _).
  exists provider. split; [exact Hat|].
  apply Hmongo; reflexivity.
Defined.

(** C9 as stated fails for a custom repository class: on a mongodb
    connection its provider uses the relational lookup. *)
Lemma custom_repository_on_mongodb_uses_relational_lookup :
  ∃ provider,
    createTypeOrmProviders string getRepositoryToken getDataSourceToken []
      (Some [RepositoryClass 1]) None !! 0 = Some provider
    ∧ type (options mongoConnection) = Some "mongodb"
    ∧ useFactory provider mongoConnection =
        getRepository mongoConnection (RepositoryClass 1)
    ∧ useFactory provider mongoConnection ≠
        getMongoRepository mongoConnection (RepositoryClass 1).
Proof. eexists. repeat split. done. Qed.

(** [forFeature([RepositoryClass 1])] stores two entries: the repository
    class and, after it, the entity class it manages. *)
Lemma forFeature_custom_repository_stores_two :
  registered (TokenName DEFAULT_DATA_SOURCE_NAME)
    (storage
       (forFeature string getDataSourceName getRepositoryToken
          getDataSourceToken [] getCustomRepositoryEntity
          (Some [RepositoryClass 1]) None start).1) =
  [RepositoryClass 1; EntityClass 1]
  ∧ length [RepositoryClass 1] <
    length
      (registered (TokenName DEFAULT_DATA_SOURCE_NAME)
         (storage
            (forFeature string getDataSourceName getRepositoryToken
               getDataSourceToken [] getCustomRepositoryEntity
               (Some [RepositoryClass 1]) None start).1)).
Proof.
  apply (forFeature_registers_derived_entities_after_passed string
           getDataSourceName getRepositoryToken getDataSourceToken []
           getCustomRepositoryEntity (Some [RepositoryClass 1]) None start
           (EntityClass 1)).
  - by apply (bool_decide_unpack _).
  - by apply (bool_decide_unpack _).
  - by apply (bool_decide_unpack _).
Defined.

End Instances.

(** * Further properties of the modules *)

(** ** The other branches of the connection bootstrap *)

Section BootstrapBranches.

Variable getDataSourceName : DataSourceOptions -> string.
Variable createConnection : TypeOrmDataSourceFactory.

Local Abbreviation reusable := (reusableDataSource getDataSourceName).
Local Abbreviation argument := (factoryArgument getDataSourceName).
Local Abbreviation connect := (connectOnce getDataSourceName).
Local Abbreviation registered := (getEntitiesByDataSource getDataSourceName).
Local Abbreviation bootstrap :=
  (createDataSourceFactory getDataSourceName createConnection).

(** A run that reuses nothing: failed attempts, then a last one. *)
Lemma bootstrap_shape options dataSourceFactory w :
  reusable options w = None →
  ∃ errors,
    (bootstrap options dataSourceFactory w).1 =
    recordInvocation (argument options (getDataSourceName options) w)
      (afterFailures (argument options (getDataSourceName options) w)
         (delayMs options) (getDataSourceName options)
         (verboseRetryLog options) errors w).
Proof.
  intros Hreuse. rewrite bootstrap_eq.
  destruct (retryLoop_shape getDataSourceName options
              (default createConnection dataSourceFactory)
              (getDataSourceName options) (delayMs options)
              (getDataSourceName options) (verboseRetryLog options)
              (toRetry options) (Z.to_nat (attempts options - 1)) w Hreuse)
    as (errors & _ & Hrun).
  by exists errors.
Qed.

(** Every call of a run that reuses nothing has the same argument. *)
Lemma bootstrap_invocations options dataSourceFactory w :
  reusable options w = None →
  ∃ retries,
    invocations (bootstrap options dataSourceFactory w).1 =
    invocations w ++
    replicate (S retries) (argument options (getDataSourceName options) w).
Proof.
  intros Hreuse.
  destruct (bootstrap_shape options dataSourceFactory w Hreuse)
    as (errors & Hrun).
  exists (length errors). rewrite Hrun.
  cbn [recordInvocation afterFailures invocations].
  by rewrite <- app_assoc, <- replicate_S_end.
Qed.

(** A run that reuses a connection changes nothing. *)
Lemma bootstrap_reuse options dataSourceFactory w dataSource :
  reusable options w = Some dataSource →
  bootstrap options dataSourceFactory w = (w, inr dataSource).
Proof.
  intros Hreuse.
  by rewrite bootstrap_eq, retryLoop_eq,
    (connect_reuse getDataSourceName _ _ _ _ dataSource).
Qed.

(** What the closure passes to the factory depends on the registry only
    through the lookup of the logical name. *)
Lemma argument_registered options token w st :
  registered (TokenName token) st = registered (TokenName token) (storage w) →
  argument options token (setStorage st w) = argument options token w.
Proof.
  intros Hsame. unfold factoryArgument, resolveEntities.
  cbn [setStorage storage]. by rewrite Hsame.
Qed.

(** A registry that makes no difference to the argument of the factory makes
    no difference to the run. *)
Lemma retryLoop_setStorage options factory token delay label verbose toRetry
    st remaining :
  ∀ w,
    argument options token (setStorage st w) = argument options token w →
    retryLoop remaining delay label verbose toRetry
      (connect options factory token) (setStorage st w) =
    (setStorage st
       (retryLoop remaining delay label verbose toRetry
          (connect options factory token) w).1,
     (retryLoop remaining delay label verbose toRetry
        (connect options factory token) w).2).
Proof.
  induction remaining as [|remaining IH]; intros w Harg;
    cbn [retryLoop];
    (destruct (reusable options w) as [dataSource|] eqn:Hreuse;
     [ rewrite (connect_reuse getDataSourceName _ _ _ w dataSource) by done;
       by rewrite (connect_reuse getDataSourceName _ _ _ (setStorage st w)
                     dataSource)
     | rewrite (connect_invoke getDataSourceName _ _ _ w) by done;
       rewrite (connect_invoke getDataSourceName _ _ _ (setStorage st w))
         by done;
       rewrite Harg; unfold invoke; cbn [setStorage invocations];
       destruct (factory _ _) as [e|dataSource]; [|done] ]).
  - done.
  - destruct (retryable toRetry e); [|done].
    set (w1 := wait delay
                 (writeLog (retryWarning label verbose e)
                    (recordInvocation (argument options token w) w))).
    rewrite <- (IH w1); [done|].
    rewrite (argument_frame getDataSourceName options token
               (setStorage st w) (setStorage st w1)) by done.
    rewrite Harg. symmetry. by apply argument_frame.
Qed.

Lemma bootstrap_setStorage options dataSourceFactory st w :
  argument options (getDataSourceName options) (setStorage st w) =
    argument options (getDataSourceName options) w →
  bootstrap options dataSourceFactory (setStorage st w) =
  (setStorage st (bootstrap options dataSourceFactory w).1,
   (bootstrap options dataSourceFactory w).2).
Proof.
  intros Harg. rewrite !bootstrap_eq. by apply retryLoop_setStorage.
Qed.

(** Without a driver type the connection factory is called in its
    zero-argument form, on every attempt, whatever the options say about
    auto-load and entities and whatever the registry holds. *)
Theorem no_driver_type_calls_factory_without_argument
    (options : TypeOrmModuleOptions)
    (dataSourceFactory : option TypeOrmDataSourceFactory) (w : World) :
  truthy (type options) = false →
  reusable options w = None →
  ∃ retries,
    invocations (bootstrap options dataSourceFactory w).1 =
    invocations w ++ replicate (S retries) None.
Proof.
  intros Htype Hreuse.
  destruct (bootstrap_invocations options dataSourceFactory w Hreuse)
    as (retries & Hrun).
  exists retries. rewrite Hrun. unfold factoryArgument. by rewrite Htype.
Qed.

(** With a driver type and auto-load off, every call of the connection
    factory receives the options as they were given: the entities are not
    normalized and the registry adds nothing; with any other registry
    content the run is the same, call for call. *)
Theorem without_auto_load_options_pass_as_given
    (options : TypeOrmModuleOptions)
    (dataSourceFactory : option TypeOrmDataSourceFactory) (w : World) :
  truthy (type options) = true →
  autoLoadEntities options = false →
  reusable options w = None →
  (∃ retries,
     invocations (bootstrap options dataSourceFactory w).1 =
     invocations w ++ replicate (S retries) (Some options))
  ∧ (∀ st,
       bootstrap options dataSourceFactory (setStorage st w) =
       (setStorage st (bootstrap options dataSourceFactory w).1,
        (bootstrap options dataSourceFactory w).2)).
Proof.
  intros Htype Hauto Hreuse. split.
  - destruct (bootstrap_invocations options dataSourceFactory w Hreuse)
      as (retries & Hrun).
    exists retries. rewrite Hrun. unfold factoryArgument.
    by rewrite Htype, Hauto.
  - intros st. apply bootstrap_setStorage.
    unfold factoryArgument. by rewrite Htype, Hauto.
Qed.

End BootstrapBranches.

(** ** Feature registration and what reaches the connection factory *)

Lemma foldl_pushNew_elem_of (l collection : list EntityClassOrSchema) x :
  x ∈ foldl pushNew collection l ↔ x ∈ collection ∨ x ∈ l.
Proof.
  rewrite foldl_pushNew, elem_of_app, list_elem_of_filter.
  rewrite firstOccurrences_elem_of.
  destruct (decide (x ∈ collection)); tauto.
Qed.

Lemma foldl_pushNew_NoDup (l collection : list EntityClassOrSchema) :
  NoDup collection → NoDup (foldl pushNew collection l).
Proof.
  intros Hnd. rewrite foldl_pushNew. apply NoDup_app. split; [done|]. split.
  - intros x Hx [Hnot _]%list_elem_of_filter. by apply Hnot.
  - apply NoDup_filter, firstOccurrences_NoDup.
Qed.

(** Accumulating entities that are all stored changes nothing. *)
Lemma foldl_pushNew_stored (l collection : list EntityClassOrSchema) :
  (∀ x, x ∈ l → x ∈ collection) → foldl pushNew collection l = collection.
Proof.
  intros Hall. rewrite foldl_pushNew.
  rewrite (filter_none (fun y => y ∉ collection)); [by rewrite app_nil_r|].
  apply Forall_forall. intros x Hx Hnot.
  rewrite firstOccurrences_elem_of in Hx. apply Hnot. by apply Hall.
Qed.

Section FeatureAndBootstrap.

Variable InjectionToken : Type.
Variable getDataSourceName : DataSourceOptions -> string.
Variable getRepositoryToken :
  EntityClassOrSchema -> option DataSourceToken -> InjectionToken.
Variable getDataSourceToken : option DataSourceToken -> InjectionToken.
Variable tables : list EntityClassOrSchema.
Variable getCustomRepositoryEntity :
  list EntityClassOrSchema -> list EntityClassOrSchema.
Variable createConnection : TypeOrmDataSourceFactory.

Local Abbreviation keyOf := (resolveKey getDataSourceName).
Local Abbreviation registered := (getEntitiesByDataSource getDataSourceName).
Local Abbreviation reusable := (reusableDataSource getDataSourceName).
Local Abbreviation bootstrap :=
  (createDataSourceFactory getDataSourceName createConnection).
Local Abbreviation providersOf :=
  (createTypeOrmProviders InjectionToken getRepositoryToken getDataSourceToken
     tables).
Local Abbreviation feature :=
  (forFeature InjectionToken getDataSourceName getRepositoryToken
     getDataSourceToken tables getCustomRepositoryEntity).
Local Abbreviation featureAll :=
  (forFeatureAll InjectionToken getDataSourceName getRepositoryToken
     getDataSourceToken tables getCustomRepositoryEntity).

(** The connection argument of [forFeature] with its default *)
Local Abbreviation target dataSource :=
  (default (TokenName DEFAULT_DATA_SOURCE_NAME) dataSource).

Lemma resolveEntities_eq options token w :
  resolveEntities getDataSourceName options token w =
  configuredEntities options ++ registered (TokenName token) (storage w).
Proof.
  unfold resolveEntities, configuredEntities.
  by destruct (entities options).
Qed.

Lemma feature_world entities dataSource w :
  (feature entities dataSource w).1 =
  setStorage
    (addEntitiesByDataSource getDataSourceName (target dataSource)
       (default [] entities ++ getCustomRepositoryEntity (default [] entities))
       (storage w)) w.
Proof. done. Qed.

Lemma feature_registered entities dataSource w token :
  keyOf token = keyOf (target dataSource) →
  registered token (storage (feature entities dataSource w).1) =
  foldl pushNew (registered token (storage w))
    (default [] entities ++ getCustomRepositoryEntity (default [] entities)).
Proof.
  intros Hkey. rewrite feature_world. cbn [setStorage storage].
  by apply registered_register_key.
Qed.

Lemma feature_registered_other entities dataSource w token :
  keyOf token ≠ keyOf (target dataSource) →
  registered token (storage (feature entities dataSource w).1) =
  registered token (storage w).
Proof.
  intros Hkey. rewrite feature_world. cbn [setStorage storage].
  by apply registered_register_other.
Qed.

(** What [forFeature] leaves under its key: an entity is found there
    afterwards exactly when it was found before, was passed, or was derived
    from a passed custom repository; what was stored stays in front, in its
    order; and the lookups of all other keys are as before. *)
Theorem forFeature_lookup_round_trip
    (entities : option (list EntityClassOrSchema))
    (dataSource : option DataSourceToken) (w : World) :
  (∀ x, x ∈ registered (target dataSource)
              (storage (feature entities dataSource w).1) ↔
        x ∈ registered (target dataSource) (storage w)
        ∨ x ∈ default [] entities
        ∨ x ∈ getCustomRepositoryEntity (default [] entities))
  ∧ registered (target dataSource) (storage w) `prefix_of`
      registered (target dataSource)
        (storage (feature entities dataSource w).1)
  ∧ (∀ token, keyOf token ≠ keyOf (target dataSource) →
       registered token (storage (feature entities dataSource w).1) =
       registered token (storage w)).
Proof.
  split; [|split].
  - intros x. rewrite feature_registered by done.
    rewrite foldl_pushNew_elem_of, elem_of_app. tauto.
  - rewrite feature_registered by done. rewrite foldl_pushNew.
    by apply prefix_app_r.
  - intros token Hkey. by apply feature_registered_other.
Qed.

Lemma register_twice dataSource l (st : gmap string (list EntityClassOrSchema)) :
  addEntitiesByDataSource getDataSourceName dataSource l
    (addEntitiesByDataSource getDataSourceName dataSource l st) =
  addEntitiesByDataSource getDataSourceName dataSource l st.
Proof.
  unfold addEntitiesByDataSource. cbn zeta.
  rewrite lookup_insert_eq. cbn [default from_option].
  rewrite insert_insert_eq. f_equal. apply foldl_pushNew_stored.
  intros x Hx. apply foldl_pushNew_elem_of. by right.
Qed.

(** Calling [forFeature] a second time with the same arguments changes
    nothing: the world and the module returned are those of the first
    call. *)
Theorem forFeature_twice_is_once
    (entities : option (list EntityClassOrSchema))
    (dataSource : option DataSourceToken) (w : World) :
  feature entities dataSource (feature entities dataSource w).1 =
  feature entities dataSource w.
Proof.
  unfold forFeature. cbn [fst]. f_equal.
  unfold setStorage. cbn [storage manager invocations logged waited closed].
  f_equal. apply register_twice.
Qed.

(** No sequence of [forFeature] calls ever stores an entity twice under a
    key: collections without duplicates stay without duplicates. *)
Theorem forFeature_keeps_collections_duplicate_free
    (calls : list (option (list EntityClassOrSchema) * option DataSourceToken))
    (w : World) :
  (∀ token, NoDup (registered token (storage w))) →
  ∀ token, NoDup (registered token (storage (featureAll calls w))).
Proof.
  revert w. induction calls as [|[entities dataSource] calls IH];
    intros w Hnd token; [apply Hnd|].
  unfold forFeatureAll in *. cbn [foldl]. apply IH. intros token'.
  cbn [fst snd].
  destruct (decide (keyOf token' = keyOf (target dataSource))) as [Hkey|Hkey].
  - rewrite feature_registered by done. by apply foldl_pushNew_NoDup.
  - by rewrite feature_registered_other.
Qed.

(** [forFeature] builds repository providers for the descriptors passed and
    for nothing else: one provider per descriptor, in order, provided under
    the repository token of the descriptor and injecting the one token of
    the connection argument; the same list is exported.  The entity classes
    derived from custom repositories are registered but get no provider. *)
Theorem forFeature_provides_one_repository_per_passed_entity
    (entities : option (list EntityClassOrSchema))
    (dataSource : option DataSourceToken) (w : World) :
  exports (feature entities dataSource w).2 =
    providers (feature entities dataSource w).2
  ∧ length (providers (feature entities dataSource w).2) =
      length (default [] entities)
  ∧ provide <$> providers (feature entities dataSource w).2 =
      (fun entity => getRepositoryToken entity (Some (target dataSource)))
      <$> default [] entities
  ∧ Forall (fun p => inject p = [getDataSourceToken (Some (target dataSource))])
      (providers (feature entities dataSource w).2)
  ∧ (∀ i entity connection,
       default [] entities !! i = Some entity →
       (fun p => useFactory p connection)
         <$> providers (feature entities dataSource w).2 !! i =
       Some (repositoryFactory entity connection)).
Proof.
  unfold forFeature, createTypeOrmProviders. cbn [fst snd providers exports].
  generalize (default [] entities). intros l. simpl.
  split; [done|]. split; [by rewrite length_fmap|].
  split; [by rewrite <- list_fmap_compose|]. split.
  - apply Forall_fmap, Forall_true. by intros entity.
  - intros i entity connection Hi. by rewrite !list_lookup_fmap, Hi.
Qed.

(** In auto-load mode the configured entities and the registry's are
    concatenated without de-duplication: the entity list of the options the
    factory receives is the configured list followed by the registry's, it
    has as many entries as the two together, and an entity that is both
    configured and registered is in it twice. *)
Theorem auto_load_does_not_deduplicate
    (options : TypeOrmModuleOptions)
    (dataSourceFactory : option TypeOrmDataSourceFactory) (w : World)
    (x : EntityClassOrSchema) :
  autoLoadEntities options = true →
  truthy (type options) = true →
  reusable options w = None →
  x ∈ configuredEntities options →
  x ∈ registered (TokenName (getDataSourceName options)) (storage w) →
  ∃ retries passed l,
    invocations (bootstrap options dataSourceFactory w).1 =
      invocations w ++ replicate (S retries) (Some passed)
    ∧ entities passed = Some (ArrayForm l)
    ∧ l = configuredEntities options ++
          registered (TokenName (getDataSourceName options)) (storage w)
    ∧ length l =
        length (configuredEntities options) +
        length (registered (TokenName (getDataSourceName options))
                  (storage w))
    ∧ ¬ NoDup l.
Proof.
  intros Hauto Htype Hreuse Hconfigured Hregistered.
  destruct (bootstrap_invocations getDataSourceName createConnection options
              dataSourceFactory w Hreuse) as (retries & Hrun).
  exists retries,
    (withEntities options
       (resolveEntities getDataSourceName options (getDataSourceName options)
          w)),
    (configuredEntities options ++
     registered (TokenName (getDataSourceName options)) (storage w)).
  split; [|split; [|split; [|split]]].
  - rewrite Hrun. unfold factoryArgument. by rewrite Htype, Hauto.
  - cbn [withEntities entities]. by rewrite resolveEntities_eq.
  - done.
  - by rewrite length_app.
  - intros (_ & Hdisjoint & _)%NoDup_app. by apply (Hdisjoint x).
Qed.

(** Registration and bootstrap compose: after [forFeature] for a connection
    argument that resolves to the logical name of the options, an auto-load
    bootstrap passes to the factory options whose entity list is the
    configured entities, then what the registry held for the name, then the
    new ones among the descriptors passed to [forFeature] and the entities
    derived from them. *)
Theorem forFeature_entities_reach_the_factory
    (options : TypeOrmModuleOptions)
    (dataSourceFactory : option TypeOrmDataSourceFactory)
    (descriptors : option (list EntityClassOrSchema))
    (dataSource : option DataSourceToken) (w : World) :
  autoLoadEntities options = true →
  truthy (type options) = true →
  reusable options w = None →
  keyOf (target dataSource) = getDataSourceName options →
  ∃ retries passed,
    invocations
      (bootstrap options dataSourceFactory
         (feature descriptors dataSource w).1).1 =
      invocations w ++ replicate (S retries) (Some passed)
    ∧ entities passed =
        Some (ArrayForm
          (configuredEntities options ++
           foldl pushNew
             (registered (TokenName (getDataSourceName options)) (storage w))
             (default [] descriptors ++
              getCustomRepositoryEntity (default [] descriptors)))).
Proof.
  intros Hauto Htype Hreuse Hkey.
  destruct (bootstrap_invocations getDataSourceName createConnection options
              dataSourceFactory (feature descriptors dataSource w).1)
    as (retries & Hrun); [done|].
  exists retries,
    (withEntities options
       (resolveEntities getDataSourceName options (getDataSourceName options)
          (feature descriptors dataSource w).1)).
  split.
  - rewrite Hrun. unfold factoryArgument. by rewrite Htype, Hauto.
  - cbn [withEntities entities]. rewrite resolveEntities_eq.
    by rewrite (feature_registered descriptors dataSource w
                  (TokenName (getDataSourceName options))).
Qed.

(** A [forFeature] for another connection makes no difference to a
    bootstrap: same outcome, same calls of the factory with the same
    arguments, same log; only the registry differs, as [forFeature] left
    it. *)
Theorem forFeature_for_another_connection_changes_no_bootstrap
    (options : TypeOrmModuleOptions)
    (dataSourceFactory : option TypeOrmDataSourceFactory)
    (entities : option (list EntityClassOrSchema))
    (dataSource : option DataSourceToken) (w : World) :
  keyOf (target dataSource) ≠ getDataSourceName options →
  bootstrap options dataSourceFactory (feature entities dataSource w).1 =
  (setStorage (storage (feature entities dataSource w).1)
     (bootstrap options dataSourceFactory w).1,
   (bootstrap options dataSourceFactory w).2).
Proof.
  intros Hkey. rewrite feature_world at 1.
  apply bootstrap_setStorage, argument_registered.
  apply registered_register_other. cbn [resolveKey]. done.
Qed.

End FeatureAndBootstrap.

(** ** Shutdown without anything to close *)

Section ShutdownEdges.

Variable InjectionToken : Type.
Variable getDataSourceName : DataSourceOptions -> string.
Variable createConnection : TypeOrmDataSourceFactory.
Variable getDataSourceToken : option DataSourceToken -> InjectionToken.
Variable closeOutcome : DataSource -> option Error.

Local Abbreviation shutdown :=
  (onApplicationShutdown InjectionToken getDataSourceToken closeOutcome).
Local Abbreviation bootstrap :=
  (createDataSourceFactory getDataSourceName createConnection).

Lemma shutdown_kept_alive (this : TypeOrmCoreModule InjectionToken) w :
  keepDataSourceAlive (this_options this) = true →
  shutdown this w = (w, inr tt).
Proof. intros Hkeep. unfold onApplicationShutdown. by rewrite Hkeep. Qed.

(** With the keep-alive flag set, or when the container answers with no
    connection, the shutdown hook completes and leaves the world as it was:
    no [close], no log line. *)
Theorem shutdown_with_nothing_to_close_does_nothing
    (this : TypeOrmCoreModule InjectionToken) (w : World) :
  keepDataSourceAlive (this_options this) = true
  ∨ this_moduleRef this
      (getDataSourceToken (Some (TokenObject (this_options this)))) = None →
  shutdown this w = (w, inr tt).
Proof.
  intros [Hkeep|Hnone]; [by apply shutdown_kept_alive|].
  unfold onApplicationShutdown, tryCatch. rewrite Hnone.
  by destruct (keepDataSourceAlive (this_options this)).
Qed.

(** A connection that the bootstrap took over from the connection manager is
    never closed by the module that took it: a bootstrap that did not call
    the connection factory has the keep-alive flag set, and with that flag
    the shutdown hook of a module with these options closes nothing,
    whatever its container holds. *)
Theorem reused_connection_is_left_open_at_shutdown
    (options : TypeOrmModuleOptions)
    (dataSourceFactory : option TypeOrmDataSourceFactory) (w : World) :
  invocations (bootstrap options dataSourceFactory w).1 = invocations w →
  ∀ (moduleRef : InjectionToken → option DataSource) (w' : World),
    shutdown (mkCoreModule InjectionToken options moduleRef) w' =
    (w', inr tt).
Proof.
  intros Hskipped moduleRef w'. apply shutdown_kept_alive. cbn.
  destruct (reusableDataSource getDataSourceName options w)
    as [held|] eqn:Hreuse.
  - by apply reusable_Some in Hreuse as (Hkeep & _).
  - exfalso.
    destruct (bootstrap_invocations getDataSourceName createConnection
                options dataSourceFactory w Hreuse) as (retries & Hrun).
    rewrite Hrun in Hskipped. apply (f_equal length) in Hskipped.
    rewrite length_app, length_replicate in Hskipped. lia.
Qed.

End ShutdownEdges.

(** ** Asynchronous options providers *)

Section AsyncProviderFacts.

Variable InjectionToken Any : Type.
Variable TYPEORM_MODULE_OPTIONS : InjectionToken.

Local Abbreviation optionsProvider :=
  (createAsyncOptionsProvider InjectionToken Any TYPEORM_MODULE_OPTIONS).
Local Abbreviation asyncProviders :=
  (createAsyncProviders InjectionToken Any TYPEORM_MODULE_OPTIONS).

(** A user factory takes precedence over [useClass] and [useExisting]: the
    module then registers the options provider alone, built from that
    factory and from the user's [inject] list (empty when there is none); no
    class is registered or injected. *)
Theorem useFactory_takes_precedence
    (options : AsyncOptions.t InjectionToken Any)
    (factory : list Any → Error + TypeOrmModuleOptions) :
  AsyncOptions.useFactory options = Some factory →
  asyncProviders options =
  [UserFactoryProvider TYPEORM_MODULE_OPTIONS factory
     (default [] (AsyncOptions.inject options))].
Proof.
  intros Hfactory. unfold createAsyncProviders, createAsyncOptionsProvider.
  rewrite Hfactory.
  rewrite (bool_decide_eq_true_2 (is_Some (Some factory))) by done.
  by rewrite orb_true_r.
Qed.

(** Without a user factory and with [useClass] given, the options provider
    injects that class, also when [useExisting] is given too; but the module
    registers a provider for the class only when [useExisting] is absent.
    With both given the injected class is left for the host to provide. *)
Theorem injected_class_is_registered_only_without_useExisting
    (options : AsyncOptions.t InjectionToken Any) (class : InjectionToken) :
  AsyncOptions.useFactory options = None →
  AsyncOptions.useClass options = Some class →
  providedToken (optionsProvider options) = Some TYPEORM_MODULE_OPTIONS
  ∧ injectedTokens (optionsProvider options) = [Some class]
  ∧ (ClassProvider (Some class) (Some class) ∈ asyncProviders options ↔
     AsyncOptions.useExisting options = None)
  ∧ (is_Some (AsyncOptions.useExisting options) →
     asyncProviders options = [optionsProvider options]).
Proof.
  intros Hfactory Hclass.
  unfold createAsyncProviders, createAsyncOptionsProvider.
  rewrite Hfactory, Hclass. cbn [orElse providedToken injectedTokens].
  split; [done|]. split; [done|].
  destruct (AsyncOptions.useExisting options) as [existing|].
  - rewrite (bool_decide_eq_true_2 (is_Some (Some existing))) by done.
    cbn [orb]. split; [|done]. split; [|done].
    intros Hin. apply list_elem_of_singleton in Hin. discriminate Hin.
  - rewrite (bool_decide_eq_false_2 (is_Some None)) by by intros [? ?].
    rewrite (bool_decide_eq_false_2 (is_Some None)) by by intros [? ?].
    cbn [orb]. split; [|by intros [? ?]]. split; [done|].
    intros _. apply elem_of_cons. right. by apply list_elem_of_singleton.
Qed.

End AsyncProviderFacts.

(** ** The further properties at concrete inputs *)

Section MoreInstances.

Import Fixtures Samples.

Local Abbreviation bootstrap :=
  (createDataSourceFactory getDataSourceName alwaysFails).
Local Abbreviation registered := (getEntitiesByDataSource getDataSourceName).
Local Abbreviation feature :=
  (forFeature string getDataSourceName getRepositoryToken getDataSourceToken
     [] getCustomRepositoryEntity).
Local Abbreviation shutdown :=
  (onApplicationShutdown string getDataSourceToken closeFails).

(** No driver type: the factory is called without argument, although
    auto-load is on, an entity is configured and the registry holds two. *)
Lemma untyped_options_connect_without_argument :
  ∃ retries,
    invocations (bootstrap untyped (Some failsTwice) registeredYZ).1 =
    replicate (S retries) None.
Proof.
  destruct (no_driver_type_calls_factory_without_argument getDataSourceName
              alwaysFails untyped (Some failsTwice) registeredYZ
              eq_refl eq_refl) as [retries Hrun].
  exists retries. exact Hrun.
Defined.

(** Auto-load off: the options arrive as given, the registry's two entities
    are not added. *)
Lemma postgres_options_arrive_as_given :
  ∃ retries,
    invocations (bootstrap (postgres (Some 3%Z)) (Some failsTwice)
                   registeredYZ).1 =
    replicate (S retries) (Some (postgres (Some 3%Z))).
Proof.
  destruct (proj1 (without_auto_load_options_pass_as_given getDataSourceName
                     alwaysFails (postgres (Some 3%Z)) (Some failsTwice)
                     registeredYZ eq_refl eq_refl eq_refl))
    as [retries Hrun].
  exists retries. exact Hrun.
Defined.

(** [Y] configured and registered: it is passed twice. *)
Lemma configured_and_registered_entity_is_passed_twice :
  ∃ retries passed l,
    invocations (bootstrap (autoLoad (Some (ArrayForm [EntityClass 2])))
                   (Some failsTwice) registeredYZ).1 =
      replicate (S retries) (Some passed)
    ∧ entities passed = Some (ArrayForm l)
    ∧ l = [EntityClass 2; EntityClass 2; EntityClass 3]
    ∧ length l = 3
    ∧ ¬ NoDup l.
Proof.
  destruct (auto_load_does_not_deduplicate getDataSourceName alwaysFails
              (autoLoad (Some (ArrayForm [EntityClass 2])))
              (Some failsTwice) registeredYZ (EntityClass 2)
              eq_refl eq_refl eq_refl
              ltac:(by apply (bool_decide_unpack _))
              ltac:(by apply (bool_decide_unpack _)))
    as (retries & passed & l & Hrun & Hentities & Hl & Hlen & Hdup).
  exists retries, passed, l.
  split; [exact Hrun|]. split; [exact Hentities|]. split; [exact Hl|].
  split; [exact Hlen|exact Hdup].
Defined.

(** [forFeature([RepositoryClass 1])], then an auto-load bootstrap with
    [EntityClass 5] configured: the factory receives the configured entity,
    the repository class and the entity class it manages. *)
Lemma feature_then_bootstrap_passes_three :
  ∃ retries passed,
    invocations
      (bootstrap (autoLoad (Some (ArrayForm [EntityClass 5])))
         (Some failsTwice)
         (feature (Some [RepositoryClass 1]) None start).1).1 =
      replicate (S retries) (Some passed)
    ∧ entities passed =
        Some (ArrayForm [EntityClass 5; RepositoryClass 1; EntityClass 1]).
Proof.
  destruct (forFeature_entities_reach_the_factory string getDataSourceName
              getRepositoryToken getDataSourceToken []
              getCustomRepositoryEntity alwaysFails
              (autoLoad (Some (ArrayForm [EntityClass 5])))
              (Some failsTwice) (Some [RepositoryClass 1]) None start
              eq_refl eq_refl eq_refl eq_refl)
    as (retries & passed & Hrun & Hentities).
  exists retries, passed. split; [exact Hrun|exact Hentities].
Defined.

(** A registration for "reporting" does not change the outcome of the
    bootstrap of the default connection. *)
Lemma feature_for_reporting_leaves_default_bootstrap :
  (bootstrap (autoLoad None) (Some failsTwice)
     (feature (Some [EntityClass 9]) (Some (TokenName "reporting"))
        registeredYZ).1).2 =
  (bootstrap (autoLoad None) (Some failsTwice) registeredYZ).2.
Proof.
  apply (f_equal snd
           (forFeature_for_another_connection_changes_no_bootstrap string
              getDataSourceName getRepositoryToken getDataSourceToken []
              getCustomRepositoryEntity alwaysFails (autoLoad None)
              (Some failsTwice) (Some [EntityClass 9])
              (Some (TokenName "reporting")) registeredYZ
              ltac:(discriminate))).
Defined.

(** After [forFeature([RepositoryClass 1])] the managed entity class is found
    under the default name. *)
Lemma derived_entity_is_found_after_feature :
  EntityClass 1 ∈
  registered (TokenName DEFAULT_DATA_SOURCE_NAME)
    (storage (feature (Some [RepositoryClass 1]) None start).1).
Proof.
  apply (proj1 (forFeature_lookup_round_trip string getDataSourceName
                  getRepositoryToken getDataSourceToken []
                  getCustomRepositoryEntity (Some [RepositoryClass 1]) None
                  start)).
  right. right. by apply (bool_decide_unpack _).
Defined.

(** Two overlapping registrations from the start: no duplicate is stored. *)
Lemma overlapping_features_store_no_duplicate :
  NoDup
    (registered (TokenName DEFAULT_DATA_SOURCE_NAME)
       (storage
          (forFeatureAll string getDataSourceName getRepositoryToken
             getDataSourceToken [] getCustomRepositoryEntity
             [(Some [EntityClass 1; RepositoryClass 1], None);
              (Some [EntityClass 1; EntityClass 2], None)] start))).
Proof.
  apply (forFeature_keeps_collections_duplicate_free string getDataSourceName
           getRepositoryToken getDataSourceToken []
           getCustomRepositoryEntity).
  intros token. unfold getEntitiesByDataSource. cbn [storage start].
  rewrite lookup_empty. constructor.
Defined.

(** The provider of a schema passed to [forFeature], on a mongodb
    connection. *)
Lemma feature_provider_of_schema_on_mongodb :
  (fun p => useFactory p mongoConnection)
    <$> providers (feature (Some [EntitySchema 1]) None start).2 !! 0 =
  Some (getMongoRepository mongoConnection (EntitySchema 1)).
Proof.
  apply (proj2 (proj2 (proj2 (proj2
           (forFeature_provides_one_repository_per_passed_entity string
              getDataSourceName getRepositoryToken getDataSourceToken []
              getCustomRepositoryEntity (Some [EntitySchema 1]) None start))))
           0 (EntitySchema 1) mongoConnection eq_refl).
Defined.

(** Shutdown of a module whose container holds nothing. *)
Lemma shutdown_of_empty_module_does_nothing :
  shutdown (emptyModule (postgres None)) start = (start, inr tt).
Proof.
  apply (shutdown_with_nothing_to_close_does_nothing string
           getDataSourceToken closeFails (emptyModule (postgres None)) start).
  right. reflexivity.
Defined.

(** The keep-alive module that reused [connection] leaves it open. *)
Lemma keep_alive_module_closes_nothing :
  shutdown (mkCoreModule string keepAlive (fun _ => Some connection))
    connected = (connected, inr tt).
Proof.
  apply (reused_connection_is_left_open_at_shutdown string getDataSourceName
           alwaysFails getDataSourceToken closeFails keepAlive None
           connected).
  by vm_compute.
Defined.

(** A user factory given together with [useClass]: one provider, the
    user's. *)
Lemma user_factory_wins_over_class :
  createAsyncProviders string nat "TYPEORM_MODULE_OPTIONS" factoryAndClass =
  [UserFactoryProvider "TYPEORM_MODULE_OPTIONS" userFactory
     ["ConfigService"]].
Proof.
  apply (useFactory_takes_precedence string nat "TYPEORM_MODULE_OPTIONS"
           factoryAndClass userFactory eq_refl).
Defined.

(** [useClass] and [useExisting] both given: the class is injected and not
    registered. *)
Lemma class_injected_but_not_registered :
  injectedTokens
    (createAsyncOptionsProvider string nat "TYPEORM_MODULE_OPTIONS"
       classAndExisting) = [Some "ConfigClass"]
  ∧ createAsyncProviders string nat "TYPEORM_MODULE_OPTIONS"
      classAndExisting =
    [createAsyncOptionsProvider string nat "TYPEORM_MODULE_OPTIONS"
       classAndExisting].
Proof.
  destruct (injected_class_is_registered_only_without_useExisting string nat
              "TYPEORM_MODULE_OPTIONS" classAndExisting "ConfigClass"
              eq_refl eq_refl) as (_ & Hinject & _ & Halone).
  split; [exact Hinject|]. apply Halone. by eexists.
Defined.

End MoreInstances.
